(** * YouTube video summarizer (app.py): URL resolver, transcript fetcher,
      summary generator

    A shallow embedding of [extract_video_id], [get_transcript_text],
    [generate_summary], the prompt template and the button handler of
    [app.py], with the CPython library functions they call
    ([urllib.parse.urlparse], [urllib.parse.parse_qs], [str] methods).

    Conventions.
    - A Python [str] is a [string] holding its UTF-8 encoding; ASCII
      characters are single bytes, so every comparison with an ASCII literal
      and every split on an ASCII delimiter is the byte operation.
    - A call that may raise returns a [result]; the functions of the
      application that talk to Streamlit or to an external service run in
      the monad [M], which records what was displayed and what was called.
    - The library model follows CPython 3.11 ([urllib/parse.py],
      [ipaddress.py]).  Two places consult Unicode tables that are not
      reproduced: [str.lower] on a host name lowers ASCII letters only (the
      application compares the host with ASCII literals without [k], the one
      letter a non-ASCII character lowers to), and the NFKC screen
      [_checknetloc] applies to non-ASCII network locations only and is left
      out. *)

From Stdlib Require Import String Ascii List Bool Arith NArith ZArith Lia.
Import ListNotations.
Open Scope string_scope.

(** ** Exceptions and results *)

Inductive exn : Type :=
| KeyError (key : string)
| IndexError (msg : string)
| ValueError (msg : string)
| AttributeError (msg : string)
| ServiceError (msg : string).

(** [str(e)]: a [KeyError] prints the [repr] of its key. *)
Definition str_exn (e : exn) : string :=
  match e with
  | KeyError key => "'" ++ key ++ "'"
  | IndexError msg | ValueError msg | AttributeError msg | ServiceError msg => msg
  end.

Inductive result (A : Type) : Type :=
| Ret (a : A)
| Raise (e : exn).
Arguments Ret {A} a.
Arguments Raise {A} e.

(** ** Python [str] methods *)

Module PyStr.

Definition code (c : ascii) : N := N_of_ascii c.
Definition chr (n : N) : ascii := ascii_of_N n.

Definition between (lo hi : N) (c : ascii) : bool :=
  ((lo <=? code c) && (code c <=? hi))%N.

Definition isascii_char (c : ascii) : bool := (code c <? 128)%N.
Definition isupper (c : ascii) : bool := between 65 90 c.
Definition islower (c : ascii) : bool := between 97 122 c.
Definition isalpha (c : ascii) : bool := isupper c || islower c.
Definition isdigit (c : ascii) : bool := between 48 57 c.
Definition ishex (c : ascii) : bool :=
  isdigit c || between 65 70 c || between 97 102 c.

Fixpoint all (p : ascii -> bool) (s : string) : bool :=
  match s with
  | "" => true
  | String c s' => p c && all p s'
  end.

Fixpoint map (f : ascii -> ascii) (s : string) : string :=
  match s with
  | "" => ""
  | String c s' => String (f c) (map f s')
  end.

Definition isascii (s : string) : bool := all isascii_char s.

Definition lower_char (c : ascii) : ascii :=
  if isupper c then chr (code c + 32) else c.
Definition lower (s : string) : string := map lower_char s.

(** [c in s] *)
Fixpoint contains (c : ascii) (s : string) : bool :=
  match s with
  | "" => false
  | String a s' => Ascii.eqb a c || contains c s'
  end.

(** [s[n:]] and [s[:n]] *)
Fixpoint slice_from (n : nat) (s : string) : string :=
  match n, s with
  | O, _ => s
  | S n', String _ s' => slice_from n' s'
  | S _, "" => ""
  end.

Fixpoint slice_to (n : nat) (s : string) : string :=
  match n, s with
  | O, _ => ""
  | S n', String a s' => String a (slice_to n' s')
  | S _, "" => ""
  end.

(** [s.find(c)], [s.find(c, start)] and [s.rfind(c)]; [None] is Python's -1. *)
Fixpoint find (c : ascii) (s : string) : option nat :=
  match s with
  | "" => None
  | String a s' => if Ascii.eqb a c then Some O else option_map S (find c s')
  end.

Definition find_from (c : ascii) (start : nat) (s : string) : option nat :=
  option_map (Nat.add start) (find c (slice_from start s)).

Fixpoint rfind (c : ascii) (s : string) : option nat :=
  match s with
  | "" => None
  | String a s' =>
      match rfind c s' with
      | Some i => Some (S i)
      | None => if Ascii.eqb a c then Some O else None
      end
  end.

(** [s.partition(c)]: the text before the first [c], whether [c] was found,
    and the text after it. *)
Definition partition (c : ascii) (s : string) : string * bool * string :=
  match find c s with
  | Some i => (slice_to i s, true, slice_from (S i) s)
  | None => (s, false, "")
  end.

(** [s.rpartition(c)]: split at the last [c]; everything goes third when
    [c] is absent. *)
Definition rpartition (c : ascii) (s : string) : string * bool * string :=
  match rfind c s with
  | Some i => (slice_to i s, true, slice_from (S i) s)
  | None => ("", false, s)
  end.

(** [s.split(c)] *)
Fixpoint split (c : ascii) (s : string) : list string :=
  match s with
  | "" => [""]
  | String a s' =>
      if Ascii.eqb a c then "" :: split c s'
      else match split c s' with
           | h :: t => String a h :: t
           | [] => [String a ""]
           end
  end.

(** [s.replace(c, "")] and [s.replace(c, d)] *)
Fixpoint remove (c : ascii) (s : string) : string :=
  match s with
  | "" => ""
  | String a s' => if Ascii.eqb a c then remove c s' else String a (remove c s')
  end.

Definition replace (c d : ascii) (s : string) : string :=
  map (fun a => if Ascii.eqb a c then d else a) s.

(** [s.lstrip(chars)] for a set of characters given as a predicate *)
Fixpoint lstrip_chars (p : ascii -> bool) (s : string) : string :=
  match s with
  | "" => ""
  | String a s' => if p a then lstrip_chars p s' else s
  end.

(** [sep.join(l)] *)
Fixpoint join (sep : string) (l : list string) : string :=
  match l with
  | [] => ""
  | [x] => x
  | x :: rest => x ++ sep ++ join sep rest
  end.

Fixpoint rev_onto (s acc : string) : string :=
  match s with
  | "" => acc
  | String a s' => rev_onto s' (String a acc)
  end.
Definition rev (s : string) : string := rev_onto s "".

(** Characters for which [str.isspace] holds (CPython's
    [_PyUnicode_IsWhitespace]), by code point. *)
Definition isspace (cp : N) : bool :=
  ((9 <=? cp) && (cp <=? 13) || (28 <=? cp) && (cp <=? 32)
   || (cp =? 0x85) || (cp =? 0xA0) || (cp =? 0x1680)
   || (0x2000 <=? cp) && (cp <=? 0x200A)
   || (cp =? 0x2028) || (cp =? 0x2029) || (cp =? 0x202F)
   || (cp =? 0x205F) || (cp =? 0x3000))%N.

Definition iscont (c : ascii) : bool := between 0x80 0xBF c.

(** The first character of [s] (one to three bytes) and what follows it. *)
Definition first_char (s : string) : option (N * string) :=
  match s with
  | "" => None
  | String a r =>
      if isascii_char a then Some (code a, r) else
      match r with
      | "" => None
      | String b r2 =>
          if between 0xC2 0xDF a && iscont b
          then Some (((code a - 0xC0) * 64 + (code b - 0x80))%N, r2)
          else match r2 with
               | "" => None
               | String c r3 =>
                   if between 0xE0 0xEF a && iscont b && iscont c
                   then Some ((((code a - 0xE0) * 64 + (code b - 0x80)) * 64
                               + (code c - 0x80))%N, r3)
                   else None
               end
      end
  end.

(** The same from the end: [rs] is the string reversed. *)
Definition last_char (rs : string) : option (N * string) :=
  match rs with
  | "" => None
  | String c r =>
      if isascii_char c then Some (code c, r) else
      match r with
      | "" => None
      | String b r2 =>
          if between 0xC2 0xDF b && iscont c
          then Some (((code b - 0xC0) * 64 + (code c - 0x80))%N, r2)
          else match r2 with
               | "" => None
               | String a r3 =>
                   if between 0xE0 0xEF a && iscont b && iscont c
                   then Some ((((code a - 0xE0) * 64 + (code b - 0x80)) * 64
                               + (code c - 0x80))%N, r3)
                   else None
               end
      end
  end.

Fixpoint drop_space (next : string -> option (N * string)) (fuel : nat)
    (s : string) : string :=
  match fuel with
  | O => s
  | S fuel' =>
      match next s with
      | Some (cp, r) => if isspace cp then drop_space next fuel' r else s
      | None => s
      end
  end.

Definition lstrip (s : string) : string :=
  drop_space first_char (String.length s) s.
Definition rstrip (s : string) : string :=
  rev (drop_space last_char (String.length s) (rev s)).

(** [s.strip()] *)
Definition strip (s : string) : string := rstrip (lstrip s).

(** [sub in s] for strings *)
Fixpoint contains_str (sub s : string) : bool :=
  prefix sub s ||
  match s with
  | "" => false
  | String _ s' => contains_str sub s'
  end.

End PyStr.

(** ** [ipaddress]: which strings [IPv4Address] and [IPv6Address] accept *)

Module Ipaddress.
Import PyStr.

Fixpoint int10 (acc : N) (s : string) : N :=
  match s with
  | "" => acc
  | String c s' => int10 (acc * 10 + (code c - 48))%N s'
  end.

(** [IPv4Address._parse_octet] returns *)
Definition parse_octet_ok (octet_str : string) : bool :=
  negb (octet_str =? "")
  && (isascii octet_str && all isdigit octet_str)
  && (String.length octet_str <=? 3)%nat
  && negb (negb (octet_str =? "0") && prefix "0" octet_str)
  && (int10 0 octet_str <=? 255)%N.

(** [IPv4Address(addr_str)] returns *)
Definition is_ipv4 (addr_str : string) : bool :=
  negb (contains "/" addr_str)
  && negb (addr_str =? "")
  && (let octets := split "." addr_str in
      (List.length octets =? 4)%nat && forallb parse_octet_ok octets).

(** [IPv6Address._parse_hextet] returns; [int("", 16)] raises. *)
Definition parse_hextet_ok (hextet_str : string) : bool :=
  all ishex hextet_str
  && (String.length hextet_str <=? 4)%nat
  && negb (hextet_str =? "").

(** [IPv6Address._ip_int_from_string] returns.  When the last part is a
    dotted quad it is replaced by the two hextets it spells; they are valid
    whatever their value, and ["0"] stands for each of them here. *)
Definition ip6_int_ok (ip_str : string) : bool :=
  if ip_str =? "" then false else
  let parts := split ":" ip_str in
  if (List.length parts <? 3)%nat then false else
  let suffix := List.last parts "" in
  if contains "." suffix && negb (is_ipv4 suffix) then false else
  let parts :=
    if contains "." suffix then (removelast parts ++ ["0"; "0"])%list else parts in
  let n := List.length parts in
  if (9 <? n)%nat then false else
  let head_empty := List.hd "" parts =? "" in
  let tail_empty := List.last parts "" =? "" in
  match List.filter (fun i => List.nth i parts "" =? "") (List.seq 1 (n - 2)) with
  | _ :: _ :: _ => false
  | [skip_index] =>
      let parts_hi := if head_empty then skip_index - 1 else skip_index in
      let parts_lo :=
        if tail_empty then n - skip_index - 1 - 1 else n - skip_index - 1 in
      if head_empty && negb (parts_hi =? 0)%nat then false else
      if tail_empty && negb (parts_lo =? 0)%nat then false else
      if (8 <=? parts_hi + parts_lo)%nat then false else
      forallb parse_hextet_ok (List.firstn parts_hi parts)
      && forallb parse_hextet_ok (List.skipn (n - parts_lo) parts)
  | [] =>
      (n =? 8)%nat && negb head_empty && negb tail_empty
      && forallb parse_hextet_ok parts
  end.

(** [IPv6Address(addr_str)] returns *)
Definition is_ipv6 (addr_str : string) : bool :=
  negb (contains "/" addr_str)
  && (let '(addr, sep, scope_id) := partition "%" addr_str in
      if sep && ((scope_id =? "") || contains "%" scope_id) then false
      else ip6_int_ok addr).

End Ipaddress.

(** ** [urllib.parse] *)

Module Urllib.
Import PyStr.

Record ParseResult : Type := mkParseResult {
  scheme : string;
  netloc : string;
  path : string;
  params : string;
  query : string;
  fragment : string
}.

Definition uses_params : list string :=
  [""; "ftp"; "hdl"; "prospero"; "http"; "imap";
   "https"; "shttp"; "rtsp"; "rtspu"; "sip"; "sips";
   "mms"; "sftp"; "tel"].

(** [c in scheme_chars] *)
Definition scheme_char (c : ascii) : bool :=
  isalpha c || isdigit c || contains c "+-.".

(** [c in _WHATWG_C0_CONTROL_OR_SPACE] *)
Definition c0_control_or_space (c : ascii) : bool := (code c <=? 32)%N.

Definition in_list (x : string) (l : list string) : bool :=
  existsb (String.eqb x) l.

Definition _splitparams (url : string) : string * string :=
  if contains "/" url then
    match rfind "/" url with
    | Some j =>
        match find_from ";" j url with
        | Some i => (slice_to i url, slice_from (S i) url)
        | None => (url, "")
        end
    | None => (url, "")
    end
  else
    match find ";" url with
    | Some i => (slice_to i url, slice_from (S i) url)
    | None => (slice_to (String.length url - 1) url, url)
    end.

Definition _splitnetloc (url : string) (start : nat) : string * string :=
  let delim :=
    fold_left
      (fun delim c =>
         match find_from c start url with
         | Some wdelim => Nat.min delim wdelim
         | None => delim
         end)
      ["/"; "?"; "#"]%char (String.length url) in
  (slice_to (delim - start) (slice_from start url), slice_from delim url).

(** [re.match(r"\Av[a-fA-F0-9]+\..+\Z", hostname)] *)
Definition ipvfuture_match (hostname : string) : bool :=
  match hostname with
  | String "v" rest =>
      let after_hex := lstrip_chars ishex rest in
      negb (String.length after_hex =? String.length rest)%nat
      && match after_hex with
         | String "." tail =>
             negb (tail =? "") && negb (contains "010" tail)
         | _ => false
         end
  | _ => false
  end.

(** The messages carry [repr(hostname)], written here with single quotes. *)
Definition _check_bracketed_host (hostname : string) : result unit :=
  if prefix "v" hostname then
    if ipvfuture_match hostname then Ret tt
    else Raise (ValueError "IPvFuture address is invalid")
  else if Ipaddress.is_ipv4 hostname then
    Raise (ValueError "An IPv4 address cannot be in brackets")
  else if Ipaddress.is_ipv6 hostname then Ret tt
  else Raise (ValueError ("'" ++ hostname
                          ++ "' does not appear to be an IPv4 or IPv6 address")).

Definition _check_bracketed_netloc (netloc : string) : result unit :=
  let '(_, _, hostname_and_port) := rpartition "@" netloc in
  let '(before_bracket, have_open_br, bracketed) :=
    partition "[" hostname_and_port in
  if have_open_br then
    if negb (before_bracket =? "") then Raise (ValueError "Invalid IPv6 URL")
    else
      let '(hostname, _, port) := partition "]" bracketed in
      if negb (port =? "") && negb (prefix ":" port)
      then Raise (ValueError "Invalid IPv6 URL")
      else _check_bracketed_host hostname
  else
    let '(hostname, _, port) := partition ":" hostname_and_port in
    _check_bracketed_host hostname.

(** [urlsplit(url)]: scheme, netloc, path, query, fragment *)
Definition urlsplit (url : string)
  : result (string * string * string * string * string) :=
  let url := lstrip_chars c0_control_or_space url in
  let url := remove "010" (remove "013" (remove "009" url)) in
  let '(scheme, url) :=
    match find ":" url, url with
    | Some (S _ as i), String u0 _ =>
        if isascii_char u0 && isalpha u0 && all scheme_char (slice_to i url)
        then (lower (slice_to i url), slice_from (S i) url)
        else ("", url)
    | _, _ => ("", url)
    end in
  let split_rest (netloc url : string) :=
    let '(url, fragment) :=
      if contains "#" url
      then let '(a, _, b) := partition "#" url in (a, b) else (url, "") in
    let '(url, query) :=
      if contains "?" url
      then let '(a, _, b) := partition "?" url in (a, b) else (url, "") in
    Ret (scheme, netloc, url, query, fragment) in
  if slice_to 2 url =? "//" then
    let '(netloc, url) := _splitnetloc url 2 in
    if (contains "[" netloc && negb (contains "]" netloc))
       || (contains "]" netloc && negb (contains "[" netloc))
    then Raise (ValueError "Invalid IPv6 URL")
    else if contains "[" netloc && contains "]" netloc then
      match _check_bracketed_netloc netloc with
      | Raise e => Raise e
      | Ret _ => split_rest netloc url
      end
    else split_rest netloc url
  else split_rest "" url.

Definition urlparse (url : string) : result ParseResult :=
  match urlsplit url with
  | Raise e => Raise e
  | Ret (scheme, netloc, url, query, fragment) =>
      let '(url, params) :=
        if in_list scheme uses_params && contains ";" url
        then _splitparams url else (url, "") in
      Ret (mkParseResult scheme netloc url params query fragment)
  end.

(** The [hostname] property; [None] is Python's [None]. *)
Definition _hostinfo (netloc : string) : string :=
  let '(_, _, hostinfo) := rpartition "@" netloc in
  let '(_, have_open_br, bracketed) := partition "[" hostinfo in
  if have_open_br then
    let '(hostname, _, _) := partition "]" bracketed in hostname
  else
    let '(hostname, _, _) := partition ":" hostinfo in hostname.

Definition hostname (p : ParseResult) : option string :=
  let hostname := _hostinfo (netloc p) in
  if hostname =? "" then None
  else
    let '(hostname, percent, zone) := partition "%" hostname in
    Some (lower hostname ++ (if percent then "%" else "") ++ zone).

(** [bytes.decode("utf-8", "replace")], on the encoded result: every maximal
    ill-formed run of bytes becomes U+FFFD. *)
Definition replacement : string :=
  String (chr 0xEF) (String (chr 0xBF) (String (chr 0xBD) "")).

Definition second_of_three (a b : ascii) : bool :=
  if (code a =? 0xE0)%N then between 0xA0 0xBF b
  else if (code a =? 0xED)%N then between 0x80 0x9F b
  else iscont b.

Definition second_of_four (a b : ascii) : bool :=
  if (code a =? 0xF0)%N then between 0x90 0xBF b
  else if (code a =? 0xF4)%N then between 0x80 0x8F b
  else iscont b.

Fixpoint decode_replace (s : string) : string :=
  match s with
  | "" => ""
  | String a r =>
      if isascii_char a then String a (decode_replace r)
      else if between 0xC2 0xDF a then
        match r with
        | "" => replacement
        | String b r1 =>
            if iscont b then String a (String b (decode_replace r1))
            else replacement ++ decode_replace r
        end
      else if between 0xE0 0xEF a then
        match r with
        | "" => replacement
        | String b r1 =>
            if second_of_three a b then
              match r1 with
              | "" => replacement
              | String c r2 =>
                  if iscont c
                  then String a (String b (String c (decode_replace r2)))
                  else replacement ++ decode_replace r1
              end
            else replacement ++ decode_replace r
        end
      else if between 0xF0 0xF4 a then
        match r with
        | "" => replacement
        | String b r1 =>
            if second_of_four a b then
              match r1 with
              | "" => replacement
              | String c r2 =>
                  if iscont c then
                    match r2 with
                    | "" => replacement
                    | String d r3 =>
                        if iscont d
                        then String a (String b (String c (String d
                                                   (decode_replace r3))))
                        else replacement ++ decode_replace r2
                    end
                  else replacement ++ decode_replace r1
              end
            else replacement ++ decode_replace r
        end
      else replacement ++ decode_replace r
  end.

Definition hexval (c : ascii) : N :=
  if isdigit c then (code c - 48)%N
  else if between 65 70 c then (code c - 55)%N
  else (code c - 87)%N.

(** One item of [string.split("%")[1:]]: [_hextobyte[item[:2]] + item[2:]],
    or ["%" + item] when the first two characters are not hex digits. *)
Definition unquote_item (item : string) : string :=
  match item with
  | String h (String l rest) =>
      if ishex h && ishex l
      then String (chr (hexval h * 16 + hexval l)) rest
      else String "%" item
  | _ => String "%" item
  end.

Definition unquote_to_bytes (s : string) : string :=
  if s =? "" then "" else
  match split "%" s with
  | [] | [_] => s
  | first :: items => first ++ String.concat "" (List.map unquote_item items)
  end.

(** [_asciire.split(string)]: the maximal runs of ASCII and of other
    characters, in order, each tagged with whether it is ASCII. *)
Fixpoint runs (s : string) : list (bool * string) :=
  match s with
  | "" => []
  | String c s' =>
      match runs s' with
      | (b, r) :: t =>
          if Bool.eqb b (isascii_char c) then (b, String c r) :: t
          else (isascii_char c, String c "") :: (b, r) :: t
      | [] => [(isascii_char c, String c "")]
      end
  end.

Definition unquote (s : string) : string :=
  if negb (contains "%" s) then s
  else
    String.concat ""
      (List.map
         (fun '(ascii_run, r) =>
            if ascii_run : bool then decode_replace (unquote_to_bytes r) else r)
         (runs s)).

(** [parse_qsl(qs)] with the default arguments *)
Definition parse_qsl (qs : string) : list (string * string) :=
  let query_args := if qs =? "" then [] else split "&" qs in
  fold_left
    (fun r name_value =>
       if name_value =? "" then r
       else
         let '(nv0, has_eq, nv1) := partition "=" name_value in
         if negb has_eq then r
         else if negb (String.length nv1 =? 0)%nat then
           let name := unquote (replace "+" " " nv0) in
           let value := unquote (replace "+" " " nv1) in
           (r ++ [(name, value)])%list
         else r)
    query_args [].

(** A [dict] from [str] to [list] of [str], in insertion order. *)
Definition dict : Type := list (string * list string).

Fixpoint dict_get (d : dict) (key : string) : option (list string) :=
  match d with
  | [] => None
  | (k, v) :: d' => if k =? key then Some v else dict_get d' key
  end.

(** [d[name].append(value)] if [name in d], else [d[name] = [value]] *)
Fixpoint dict_append (d : dict) (name value : string) : dict :=
  match d with
  | [] => [(name, [value])]
  | (k, vs) :: d' =>
      if k =? name then (k, (vs ++ [value])%list) :: d'
      else (k, vs) :: dict_append d' name value
  end.

Definition parse_qs (qs : string) : dict :=
  fold_left (fun parsed_result '(name, value) =>
               dict_append parsed_result name value)
            (parse_qsl qs) [].

End Urllib.

(** ** The application: URL resolver *)

Import Urllib.

(** [extract_video_id(url)]; [Ret None] is [return None]. *)
Definition extract_video_id (url : string) : result (option string) :=
  match urlparse url with
  | Raise e => Raise e
  | Ret parsed =>
      if match hostname parsed with Some h => h =? "youtu.be" | None => false end
      then Ret (Some (PyStr.slice_from 1 (path parsed)))
      else
        if match hostname parsed with
           | Some h => in_list h ["www.youtube.com"; "youtube.com"]
           | None => false
           end
        then
          if path parsed =? "/watch" then
            match dict_get (parse_qs (query parsed)) "v" with
            | None => Raise (KeyError "v")
            | Some vs =>
                match vs with
                | v0 :: _ => Ret (Some v0)
                | [] => Raise (IndexError "list index out of range")
                end
            end
          else if prefix "/embed/" (path parsed) then
            match nth_error (PyStr.split "/" (path parsed)) 2 with
            | Some seg => Ret (Some seg)
            | None => Raise (IndexError "list index out of range")
            end
          else if prefix "/v/" (path parsed) then
            match nth_error (PyStr.split "/" (path parsed)) 2 with
            | Some seg => Ret (Some seg)
            | None => Raise (IndexError "list index out of range")
            end
          else Ret None
        else Ret None
  end.

(** ** Values of the transcript service *)

(** What [transcript.fetch()] may hand back: the data the code inspects with
    truth tests, [isinstance] and [in].  Numbers (the timing metadata of an
    entry) are carried as integers; the code never reads them. *)
#[warnings="-register-all"]
Inductive value : Type :=
| VNone
| VBool (b : bool)
| VInt (z : Z)
| VStr (s : string)
| VList (items : list value)
| VDict (items : list (string * value)).

(** [bool(v)] *)
Definition truthy (v : value) : bool :=
  match v with
  | VNone => false
  | VBool b => b
  | VInt z => negb (z =? 0)%Z
  | VStr s => negb (s =? "")
  | VList items => match items with [] => false | _ :: _ => true end
  | VDict items => match items with [] => false | _ :: _ => true end
  end.

Definition type_name (v : value) : string :=
  match v with
  | VNone => "NoneType"
  | VBool _ => "bool"
  | VInt _ => "int"
  | VStr _ => "str"
  | VList _ => "list"
  | VDict _ => "dict"
  end.

(** [d[key]] for a key that is [in d] *)
Fixpoint lookup (key : string) (d : list (string * value)) : option value :=
  match d with
  | [] => None
  | (k, v) :: d' => if k =? key then Some v else lookup key d'
  end.

(** ** External services and what the page shows *)

Record Transcript : Type := { fetch : result value }.
Record TranscriptList : Type :=
  { find_transcript : list string -> result Transcript }.
(** [YouTubeTranscriptApi] *)
Record TranscriptApi : Type :=
  { list_transcripts : string -> result TranscriptList }.
(** [genai.GenerativeModel('gemini-pro').generate_content(input).text] *)
Definition GenerativeModel : Type := string -> result string.

Inductive event : Type :=
| st_error (msg : string)
| st_warning (msg : string)
| st_subheader (body : string)
| st_markdown (body : string)
| call_list_transcripts (video_id : string)
| call_find_transcript (language_codes : list string)
| call_fetch
| call_generate_content (input : string).

(** A computation shows messages and calls services, in order, and then
    returns or raises. *)
Definition M (A : Type) : Type := list event * result A.

Definition ret {A} (a : A) : M A := ([], Ret a).

Definition bind {A B} (m : M A) (k : A -> M B) : M B :=
  match m with
  | (log, Ret a) => let '(log', r) := k a in ((log ++ log')%list, r)
  | (log, Raise e) => (log, Raise e)
  end.

Definition emit (ev : event) : M unit := ([ev], Ret tt).

(** A call to a service: logged, then its outcome. *)
Definition call {A} (ev : event) (outcome : result A) : M A := ([ev], outcome).

Definition lift {A} (r : result A) : M A := ([], r).

(** [try: m except Exception as e: handler(e)] *)
Definition try_except {A} (m : M A) (handler : exn -> M A) : M A :=
  match m with
  | (log, Ret a) => (log, Ret a)
  | (log, Raise e) => let '(log', r) := handler e in ((log ++ log')%list, r)
  end.

Notation "x <- m ;; k" := (bind m (fun x => k))
  (at level 61, m at next level, right associativity).
Notation "m ;; k" := (bind m (fun _ => k))
  (at level 61, right associativity).

(** ** The application: transcript fetcher *)

(** The [try] body of the loop over the entries (lines 63-64): the text that
    is appended, if any. *)
Definition entry_text (entry : value) : result (option string) :=
  match entry with
  | VDict d =>
      match lookup "text" d with
      | Some text =>
          if truthy text then
            match text with
            | VStr s => Ret (Some (PyStr.strip s))
            | _ => Raise (AttributeError
                            ("'" ++ type_name text
                             ++ "' object has no attribute 'strip'"))
            end
          else Ret None
      | None => Ret None
      end
  | _ => Ret None
  end.

(** The loop of lines 61-66; an exception in the body skips the entry. *)
Fixpoint collect_text (transcript_data : list value)
    (transcript_text : list string) : list string :=
  match transcript_data with
  | [] => transcript_text
  | entry :: rest =>
      match entry_text entry with
      | Ret (Some text) => collect_text rest (transcript_text ++ [text])%list
      | Ret None => collect_text rest transcript_text
      | Raise _ => collect_text rest transcript_text
      end
  end.

(** Lines 36-44: the track of the requested language, else the English one. *)
Definition select_transcript (transcript_list : TranscriptList)
    (language : string) : M (option Transcript) :=
  try_except
    (transcript <- call (call_find_transcript [language])
                        (find_transcript transcript_list [language]) ;;
     ret (Some transcript))
    (fun _ =>
       try_except
         (transcript <- call (call_find_transcript ["en"])
                             (find_transcript transcript_list ["en"]) ;;
          emit (st_warning "Transcript not available in selected language. Using English instead.") ;;
          ret (Some transcript))
         (fun e =>
            emit (st_error ("Could not find transcript: " ++ str_exn e)) ;;
            ret None)).

(** Lines 46-72: fetch the selected track, validate, filter and join. *)
Definition read_transcript (transcript : Transcript) : M (option string) :=
  fetched <- try_except
               (transcript_data <- call call_fetch (fetch transcript) ;;
                ret (Some transcript_data))
               (fun e =>
                  emit (st_error ("Failed to fetch transcript data: "
                                  ++ str_exn e)) ;;
                  ret None) ;;
  match fetched with
  | None => ret None
  | Some transcript_data =>
      if negb (truthy transcript_data) then
        emit (st_error "No transcript data received") ;; ret None
      else
        match transcript_data with
        | VList entries =>
            let transcript_text := collect_text entries [] in
            match transcript_text with
            | [] =>
                emit (st_error "No valid transcript text found in the video") ;;
                ret None
            | _ :: _ => ret (Some (PyStr.join " " transcript_text))
            end
        | _ =>
            emit (st_error "Received invalid transcript data format") ;;
            ret None
        end
  end.

(** [not x] for [x] a [str] or [None] *)
Definition falsy (x : option string) : bool :=
  match x with
  | None => true
  | Some s => s =? ""
  end.

(** [get_transcript_text(youtube_url, language)]; the default of [language]
    is [default_language]. *)
Definition default_language : string := "en".

Definition get_transcript_text (api : TranscriptApi) (youtube_url : string)
    (language : string) : M (option string) :=
  try_except
    (video_id <- lift (extract_video_id youtube_url) ;;
     if falsy video_id then
       emit (st_error "Invalid YouTube URL") ;; ret None
     else
       let video_id := match video_id with Some s => s | None => "" end in
       transcript_list <- call (call_list_transcripts video_id)
                               (list_transcripts api video_id) ;;
       selected <- select_transcript transcript_list language ;;
       match selected with
       | None => ret None
       | Some transcript => read_transcript transcript
       end)
    (fun e =>
       emit (st_error ("Error fetching transcript: " ++ str_exn e)) ;;
       ret None).

(** ** The application: summary generator *)

(** [generate_summary(transcript, prompt)] *)
Definition generate_summary (model : GenerativeModel)
    (transcript prompt : string) : M (option string) :=
  try_except
    (text <- call (call_generate_content (prompt ++ transcript))
                  (model (prompt ++ transcript)) ;;
     ret (Some text))
    (fun e =>
       emit (st_error ("AI Generation Error: " ++ str_exn e)) ;;
       ret None).

(** The options of the length slider *)
Inductive Length : Type := Short | Medium | Long.

Definition length_name (summary_length : Length) : string :=
  match summary_length with
  | Short => "Short"
  | Medium => "Medium"
  | Long => "Long"
  end.

Definition length_prompts (summary_length : Length) : string :=
  match summary_length with
  | Short => "Generate a brief summary (max 100 words)"
  | Medium => "Generate a comprehensive summary (max 250 words)"
  | Long => "Generate a detailed summary (max 500 words)"
  end.

Definition nl : string := String "010" "".

Definition DEFAULT_PROMPT (summary_length : Length) : string :=
  "You are a professional YouTube content analyzer. " ++ nl
  ++ "Generate a " ++ PyStr.lower (length_name summary_length)
  ++ " summary of this video transcript with these elements:" ++ nl
  ++ "1. Key topics covered" ++ nl
  ++ "2. Main points discussed" ++ nl
  ++ "3. Important conclusions" ++ nl
  ++ "4. Overall significance" ++ nl
  ++ nl
  ++ length_prompts summary_length
  ++ ". Present in clear, concise bullet points:" ++ nl.

(** ** The application: the "Generate Summary" button (lines 121-135) *)

(** The options of the language select box *)
Definition languages : list string := ["en"; "es"; "fr"; "de"; "it"; "pt"].

(** [language] is the value of the select box; the handler has it in scope. *)
Definition on_generate_summary (api : TranscriptApi) (model : GenerativeModel)
    (youtube_url language : string) (summary_length : Length) : M unit :=
  if negb (youtube_url =? "") then
    transcript <- get_transcript_text api youtube_url default_language ;;
    if negb (falsy transcript) then
      let transcript := match transcript with Some s => s | None => "" end in
      summary <- generate_summary model transcript
                                  (DEFAULT_PROMPT summary_length) ;;
      if negb (falsy summary) then
        let summary := match summary with Some s => s | None => "" end in
        emit (st_subheader "Video Summary") ;;
        emit (st_markdown summary)
      else emit (st_error "Failed to generate summary")
    else emit (st_error "Could not retrieve transcript")
  else emit (st_warning "Please enter a YouTube URL first").

(** ** Test doubles *)

(** A transcript service that knows one video: its tracks by language code. *)
Definition NoTranscriptFound : exn :=
  ServiceError "No transcripts were found for any of the requested language codes".

Fixpoint find_track (tracks : list (string * value)) (language_code : string)
  : option value :=
  match tracks with
  | [] => None
  | (code, data) :: rest =>
      if code =? language_code then Some data
      else find_track rest language_code
  end.

Fixpoint find_in_tracks (tracks : list (string * value))
    (language_codes : list string) : result Transcript :=
  match language_codes with
  | [] => Raise NoTranscriptFound
  | language_code :: rest =>
      match find_track tracks language_code with
      | Some data => Ret {| fetch := Ret data |}
      | None => find_in_tracks tracks rest
      end
  end.

Definition mock_api (tracks : list (string * value)) : TranscriptApi :=
  {| list_transcripts := fun _ =>
       Ret {| find_transcript := find_in_tracks tracks |} |}.

(** A generation service that answers with its input. *)
Definition echo_model : GenerativeModel := fun input => Ret input.

Definition entry (text : string) : value := VDict [("text", VStr text)].

(** ** The specification's reading of the transcript document *)

(** The text of an entry the specification keeps: a structured record with a
    non-empty text field. *)
Definition kept_text (e : value) : option string :=
  match e with
  | VDict d =>
      match lookup "text" d with
      | Some (VStr s) => if s =? "" then None else Some s
      | _ => None
      end
  | _ => None
  end.

Fixpoint kept_texts (entries : list value) : list string :=
  match entries with
  | [] => []
  | e :: rest =>
      match kept_text e with
      | Some s => s :: kept_texts rest
      | None => kept_texts rest
      end
  end.

(** Kept texts, each trimmed, joined with one space, in order. *)
Definition transcript_document (entries : list value) : string :=
  PyStr.join " " (List.map PyStr.strip (kept_texts entries)).

(** An entry whose text is not empty and is all whitespace. *)
Definition whitespace_only (e : value) : Prop :=
  exists d s, e = VDict d /\ lookup "text" d = Some (VStr s)
              /\ s <> "" /\ PyStr.strip s = "".

Fixpoint blanks (n : nat) : string :=
  match n with
  | O => ""
  | S n' => String " " (blanks n')
  end.

(** [sub] occurs in [s]. *)
Definition Substring (sub s : string) : Prop :=
  exists before after, s = before ++ sub ++ after.

(** The URLs for which the resolver returns the empty string: a short link
    whose path has at most one character, or an embed or v path whose
    segment after the marker is empty. *)
Definition names_no_identifier (p : ParseResult) : bool :=
  match hostname p with
  | None => false
  | Some h =>
      if h =? "youtu.be" then (String.length (path p) <=? 1)%nat
      else
        in_list h ["www.youtube.com"; "youtube.com"]
        && (prefix "/embed/" (path p) || prefix "/v/" (path p))
        && match nth_error (PyStr.split "/" (path p)) 2 with
           | Some seg => seg =? ""
           | None => false
           end
  end.

(** Every key of the dictionary holds a non-empty list whose first value is
    a non-empty string. *)
Definition good_dict (d : dict) : Prop :=
  Forall (fun kv => exists v0 rest, snd kv = v0 :: rest /\ v0 <> "") d.

(** ** The application: the page (lines 90-135) *)

(** What a run of the script puts on the page: the title, the thumbnail, and
    what the functions above show or call. *)
Inductive element : Type :=
| st_title (body : string)
| st_image (image caption : string) (use_column_width : bool)
| shown (e : event).

(** Lines 112-119: the thumbnail.  The bare [except: pass] swallows whatever
    the resolver raises. *)
Definition show_thumbnail (youtube_url : string) : list element :=
  if negb (youtube_url =? "") then
    match extract_video_id youtube_url with
    | Ret video_id =>
        if negb (falsy video_id) then
          let video_id := match video_id with Some s => s | None => "" end in
          [st_image ("https://img.youtube.com/vi/" ++ video_id ++ "/0.jpg")
                    "Video Thumbnail" true]
        else []
    | Raise _ => []
    end
  else [].

(** One run of the script, for the values of the three input widgets and of
    the button. *)
Definition page (api : TranscriptApi) (model : GenerativeModel)
    (youtube_url language : string) (summary_length : Length)
    (button : bool) : list element :=
  ([st_title "YouTube Video Summarizer";
    shown (st_markdown "Enter a YouTube URL to get AI-generated summary")]
   ++ show_thumbnail youtube_url
   ++ (if button
       then List.map shown
              (fst (on_generate_summary api model youtube_url language
                      summary_length))
       else []))%list.

(** ** Vocabulary of the further properties *)

(** The characters of a video identifier: letters, digits, [-] and [_]. *)
Definition id_char (c : ascii) : bool :=
  PyStr.isalpha c || PyStr.isdigit c || Ascii.eqb c "-" || Ascii.eqb c "_".

Definition is_error (e : event) : bool :=
  match e with st_error _ => true | _ => false end.

Definition is_warning (e : event) : bool :=
  match e with st_warning _ => true | _ => false end.

(** The calls to the two external services. *)
Definition is_call (e : event) : bool :=
  match e with
  | call_list_transcripts _ | call_find_transcript _ | call_fetch
  | call_generate_content _ => true
  | _ => false
  end.

(** The values of the pairs named [key], in order. *)
Fixpoint values_of (key : string) (pairs : list (string * string))
  : list string :=
  match pairs with
  | [] => []
  | (name, value) :: rest =>
      if name =? key then value :: values_of key rest
      else values_of key rest
  end.

(** Plain URLs: [scheme://host], a path and, optionally, [?] and a query. *)

(** Characters of a host name: letters, digits, [.] and [-]. *)
Definition host_char (c : ascii) : bool :=
  PyStr.isalpha c || PyStr.isdigit c || Ascii.eqb c "." || Ascii.eqb c "-".

(** Characters [urlsplit] leaves in a path: anything but tab, line feed,
    carriage return, [?], [#] and [;]. *)
Definition path_char (c : ascii) : bool :=
  negb (PyStr.contains c (String "009" (String "010" (String "013" "?#;")))).

(** Characters [urlsplit] leaves in a query: anything but tab, line feed,
    carriage return and [#]. *)
Definition query_char (c : ascii) : bool :=
  negb (PyStr.contains c (String "009" (String "010" (String "013" "#")))).

(** [scheme://host] followed by a path and, optionally, [?] and a query. *)
Definition plain_url (sch host pth : string) (qry : option string) : string :=
  sch ++ "://" ++ host ++ pth
  ++ match qry with Some q => "?" ++ q | None => "" end.

Definition well_formed (sch host pth : string) (qry : option string) : Prop :=
  (exists s0 rest, sch = String s0 rest /\ PyStr.isalpha s0 = true)
  /\ PyStr.all scheme_char sch = true
  /\ PyStr.all host_char host = true
  /\ (pth = "" \/ exists rest, pth = String "/" rest)
  /\ PyStr.all path_char pth = true
  /\ match qry with Some q => PyStr.all query_char q = true | None => True end.

(** The pairs one [name=value] argument of a query contributes. *)
Definition query_pair (name_value : string) : list (string * string) :=
  if name_value =? "" then []
  else
    let '(nv0, has_eq, nv1) := PyStr.partition "=" name_value in
    if negb has_eq then []
    else if negb (String.length nv1 =? 0)%nat then
      [(unquote (PyStr.replace "+" " " nv0), unquote (PyStr.replace "+" " " nv1))]
    else [].

(** The warning of the fallback to English (line 41). *)
Definition fallback_warning : event :=
  st_warning "Transcript not available in selected language. Using English instead.".

Definition is_generate (e : event) : bool :=
  match e with call_generate_content _ => true | _ => false end.

(** * Properties *)

(** ** Strings and the query parser *)

Lemma append_empty (s t : string) : s ++ t = "" -> s = "" /\ t = "".
Proof. destruct s; simpl; [auto | discriminate]. Qed.

Lemma concat_head_nonempty (x : string) (l : list string) :
  x <> "" -> String.concat "" (x :: l) <> "".
Proof.
  intros Hx H. destruct l as [|y l]; simpl in H.
  - auto.
  - apply append_empty in H. tauto.
Qed.

Lemma map_nonempty (f : ascii -> ascii) (s : string) :
  s <> "" -> PyStr.map f s <> "".
Proof. destruct s; simpl; [congruence | discriminate]. Qed.

Lemma replacement_append (s : string) : replacement ++ s <> "".
Proof. unfold replacement. simpl. discriminate. Qed.

Lemma decode_replace_nonempty (s : string) :
  s <> "" -> decode_replace s <> "".
Proof.
  destruct s as [|a r]; [congruence|]. intros _. simpl.
  repeat match goal with
         | |- context [if ?b then _ else _] => destruct b
         | |- context [match ?x with "" => _ | String _ _ => _ end] =>
             destruct x
         end;
    first [ discriminate | apply replacement_append
          | unfold replacement; discriminate ].
Qed.

Lemma unquote_item_nonempty (item : string) : unquote_item item <> "".
Proof.
  unfold unquote_item.
  destruct item as [|h [|l rest]]; try discriminate.
  destruct (PyStr.ishex h && PyStr.ishex l); discriminate.
Qed.

Lemma unquote_to_bytes_nonempty (s : string) :
  s <> "" -> unquote_to_bytes s <> "".
Proof.
  intros Hs. unfold unquote_to_bytes.
  destruct (s =? "") eqn:E; [apply String.eqb_eq in E; congruence|].
  destruct (PyStr.split "%" s) as [|first [|item items]]; auto.
  intros H. apply append_empty in H. destruct H as [_ H].
  revert H. apply concat_head_nonempty. apply unquote_item_nonempty.
Qed.

Lemma runs_head (c : ascii) (s : string) :
  exists b r t, runs (String c s) = (b, String c r) :: t.
Proof.
  simpl. destruct (runs s) as [|[b r] t].
  - eauto.
  - destruct (Bool.eqb b (PyStr.isascii_char c)); eauto.
Qed.

Lemma unquote_nonempty (s : string) : s <> "" -> unquote s <> "".
Proof.
  intros Hs. unfold unquote.
  destruct (negb (PyStr.contains "%" s)); [assumption|].
  destruct s as [|c s']; [congruence|].
  destruct (runs_head c s') as (b & r & t & ->).
  cbn [List.map]. apply concat_head_nonempty.
  destruct b; [|discriminate].
  apply decode_replace_nonempty, unquote_to_bytes_nonempty. discriminate.
Qed.

Lemma prefix_append (a s : string) :
  prefix a s = true -> exists rest, s = a ++ rest.
Proof.
  revert s. induction a as [|c a IH]; intros s H.
  - exists s. reflexivity.
  - destruct s as [|d s]; simpl in H; [discriminate|].
    destruct (ascii_dec c d) as [<-|]; [|discriminate].
    destruct (IH s H) as [rest ->]. exists rest. reflexivity.
Qed.

Lemma prefix_self_append (a rest : string) : prefix a (a ++ rest) = true.
Proof.
  induction a as [|c a IH]; simpl.
  - destruct rest; reflexivity.
  - destruct (ascii_dec c c); [assumption | congruence].
Qed.

Lemma length_zero_empty (s : string) : (String.length s =? 0)%nat = false -> s <> "".
Proof. destruct s; simpl; [discriminate | discriminate]. Qed.

(** Every value [parse_qsl] yields is non-empty: blank values are dropped. *)
Lemma parse_qsl_values (qs : string) :
  Forall (fun nv => snd nv <> "") (parse_qsl qs).
Proof.
  unfold parse_qsl.
  generalize (if qs =? "" then [] else PyStr.split "&" qs).
  intros args.
  assert (G : forall (acc : list (string * string)),
             Forall (fun nv => snd nv <> "") acc ->
             Forall (fun nv => snd nv <> "")
               (fold_left
                  (fun r name_value =>
                     if name_value =? "" then r
                     else
                       let '(nv0, has_eq, nv1) :=
                         PyStr.partition "=" name_value in
                       if negb has_eq then r
                       else if negb (String.length nv1 =? 0)%nat then
                         (r ++ [(unquote (PyStr.replace "+" " " nv0),
                                 unquote (PyStr.replace "+" " " nv1))])%list
                       else r)
                  args acc)).
  { induction args as [|a args IH]; intros acc Hacc; simpl; [assumption|].
    apply IH.
    destruct (a =? ""); [assumption|].
    destruct (PyStr.partition "=" a) as [[nv0 has_eq] nv1].
    destruct has_eq; simpl; [|assumption].
    destruct (String.length nv1 =? 0)%nat eqn:E; simpl; [assumption|].
    apply Forall_app. split; [assumption|].
    constructor; [|constructor]. simpl.
    apply unquote_nonempty, map_nonempty, length_zero_empty, E. }
  apply G. constructor.
Qed.

Lemma dict_append_good (d : dict) (name value : string) :
  good_dict d -> value <> "" -> good_dict (dict_append d name value).
Proof.
  unfold good_dict. intros Hd Hv.
  induction d as [|[k vs] d IH]; simpl.
  - constructor; [|constructor]. simpl. eauto.
  - inversion Hd as [|? ? Hk Hd']; subst.
    destruct (k =? name).
    + constructor; [|assumption].
      destruct Hk as (v0 & rest & Heq & Hne). simpl in *. subst vs.
      exists v0, (rest ++ [value])%list. auto.
    + constructor; auto.
Qed.

Lemma parse_qs_good (qs : string) : good_dict (parse_qs qs).
Proof.
  unfold parse_qs.
  assert (G : forall pairs (acc : dict),
             Forall (fun nv : string * string => snd nv <> "") pairs ->
             good_dict acc ->
             good_dict (fold_left
                          (fun parsed_result '(name, value) =>
                             dict_append parsed_result name value)
                          pairs acc)).
  { induction pairs as [|[n v] pairs IH]; intros acc Hp Hacc; simpl.
    - assumption.
    - inversion Hp; subst. apply IH; [assumption|].
      apply dict_append_good; assumption. }
  apply G; [apply parse_qsl_values | constructor].
Qed.

Lemma dict_get_good (d : dict) (key : string) (vs : list string) :
  good_dict d -> dict_get d key = Some vs ->
  exists v0 rest, vs = v0 :: rest /\ v0 <> "".
Proof.
  unfold good_dict. induction d as [|[k v] d IH]; simpl; intros Hd Hg.
  - discriminate.
  - inversion Hd as [|? ? Hk Hd']; subst.
    destruct (k =? key).
    + injection Hg as <-. exact Hk.
    + auto.
Qed.

(** ** URL resolver *)

(** The resolver returns no identifier for a host other than the short-link
    host and the two primary hosts. *)
Lemma other_host_not_found (url : string) (p : ParseResult) :
  urlparse url = Ret p ->
  (forall h, hostname p = Some h ->
             h <> "youtu.be" /\ h <> "www.youtube.com" /\ h <> "youtube.com") ->
  extract_video_id url = Ret None.
Proof.
  intros Hp Hh. unfold extract_video_id. rewrite Hp.
  destruct (hostname p) as [h|]; [|reflexivity].
  destruct (Hh h eq_refl) as (H1 & H2 & H3).
  apply String.eqb_neq in H1, H2, H3.
  unfold in_list. simpl. rewrite H1, H2, H3. reflexivity.
Qed.

(** On a primary host, a path that is neither [/watch] nor under [/embed/]
    or [/v/] gives no identifier. *)
Lemma other_path_not_found (url : string) (p : ParseResult) (h : string) :
  urlparse url = Ret p -> hostname p = Some h ->
  h = "www.youtube.com" \/ h = "youtube.com" ->
  path p <> "/watch" ->
  prefix "/embed/" (path p) = false -> prefix "/v/" (path p) = false ->
  extract_video_id url = Ret None.
Proof.
  intros Hp Hh Hprimary Hwatch He Hv. unfold extract_video_id.
  rewrite Hp, Hh. apply String.eqb_neq in Hwatch. rewrite Hwatch, He, Hv.
  destruct Hprimary; subst h; reflexivity.
Qed.

(** The accepted shapes. *)
Lemma short_link_resolves_to_path (url : string) (p : ParseResult) :
  urlparse url = Ret p -> hostname p = Some "youtu.be" ->
  extract_video_id url = Ret (Some (PyStr.slice_from 1 (path p))).
Proof. intros Hp Hh. unfold extract_video_id. now rewrite Hp, Hh. Qed.

Lemma watch_resolves_to_first_v (url : string) (p : ParseResult)
    (h v0 : string) (more : list string) :
  urlparse url = Ret p -> hostname p = Some h ->
  h = "www.youtube.com" \/ h = "youtube.com" ->
  path p = "/watch" ->
  dict_get (parse_qs (query p)) "v" = Some (v0 :: more) ->
  extract_video_id url = Ret (Some v0).
Proof.
  intros Hp Hh Hprimary Hpath Hv. unfold extract_video_id.
  rewrite Hp, Hh, Hpath, Hv. destruct Hprimary; subst h; reflexivity.
Qed.

Lemma split_not_nil (c : ascii) (s : string) : PyStr.split c s <> [].
Proof.
  destruct s as [|a s]; simpl; [discriminate|].
  destruct (Ascii.eqb a c); [discriminate|].
  destruct (PyStr.split c s); discriminate.
Qed.

(** Under a marker, the third segment of the path is the first segment of
    what follows the marker. *)
Lemma third_segment_after_marker (marker rest : string) :
  marker = "/embed/" \/ marker = "/v/" ->
  nth_error (PyStr.split "/" (marker ++ rest)) 2
  = Some (hd "" (PyStr.split "/" rest)).
Proof.
  pose proof (split_not_nil "/" rest) as Hne.
  intros [-> | ->]; simpl; destruct (PyStr.split "/" rest); simpl;
    congruence.
Qed.

Lemma marker_resolves_to_next_segment (url : string) (p : ParseResult)
    (h marker rest : string) :
  urlparse url = Ret p -> hostname p = Some h ->
  h = "www.youtube.com" \/ h = "youtube.com" ->
  marker = "/embed/" \/ marker = "/v/" ->
  path p = marker ++ rest ->
  extract_video_id url = Ret (Some (hd "" (PyStr.split "/" rest))).
Proof.
  intros Hp Hh Hprimary Hmarker Hpath. unfold extract_video_id.
  rewrite Hp, Hh, Hpath, (third_segment_after_marker _ _ Hmarker).
  destruct Hmarker; subst marker;
    [ rewrite (prefix_self_append "/embed/" rest)
    | replace (prefix "/embed/" ("/v/" ++ rest)) with false by reflexivity;
      rewrite (prefix_self_append "/v/" rest) ];
    destruct Hprimary; subst h; simpl; reflexivity.
Qed.

(** The library raises nothing but [ValueError] while parsing. *)
Lemma check_bracketed_host_raises (host : string) (e : exn) :
  _check_bracketed_host host = Raise e -> exists msg, e = ValueError msg.
Proof.
  unfold _check_bracketed_host. intros H.
  repeat match type of H with
         | context [if ?b then _ else _] => destruct b
         end;
    try discriminate; injection H as <-; eauto.
Qed.

Lemma check_bracketed_netloc_raises (loc : string) (e : exn) :
  _check_bracketed_netloc loc = Raise e -> exists msg, e = ValueError msg.
Proof.
  unfold _check_bracketed_netloc. intros H.
  repeat match type of H with
         | context [let '(_, _) := ?x in _] => destruct x
         | context [if ?b then _ else _] => destruct b
         end;
    try (eapply check_bracketed_host_raises; eassumption);
    injection H as <-; eauto.
Qed.

Lemma urlsplit_raises (url : string) (e : exn) :
  urlsplit url = Raise e -> exists msg, e = ValueError msg.
Proof.
  unfold urlsplit. intros H.
  repeat match type of H with
         | context [let '(_, _) := ?x in _] => destruct x
         | context [match ?x with Ret _ => _ | Raise _ => _ end] =>
             destruct x eqn:?
         | context [if ?b then _ else _] => destruct b
         end;
    try discriminate;
    try (injection H as <-;
         first [ eapply check_bracketed_netloc_raises; eassumption | eauto ]).
Qed.

Lemma urlparse_raises (url : string) (e : exn) :
  urlparse url = Raise e -> exists msg, e = ValueError msg.
Proof.
  unfold urlparse. intros H.
  destruct (urlsplit url) as [[[[[sch loc] pth] qry] frag]|e'] eqn:Hs.
  - destruct (in_list sch uses_params && PyStr.contains ";" pth);
      [destruct (_splitparams pth)|]; discriminate.
  - injection H as <-. eapply urlsplit_raises; eassumption.
Qed.

(** X1. All the resolver can do: return, raise [KeyError('v')] on a /watch
    URL of a primary host, or pass on the [ValueError] of [urlparse]; the
    subscripts [[0]] and [[2]] never go out of range. *)
Lemma resolver_outcomes (url : string) :
  (exists r, extract_video_id url = Ret r)
  \/ (extract_video_id url = Raise (KeyError "v")
      /\ exists p, urlparse url = Ret p /\ path p = "/watch"
                   /\ dict_get (parse_qs (query p)) "v" = None)
  \/ (exists msg, extract_video_id url = Raise (ValueError msg)
                  /\ urlparse url = Raise (ValueError msg)).
Proof.
  unfold extract_video_id.
  destruct (urlparse url) as [p|e] eqn:Hp.
  - destruct (hostname p) as [h|]; [|eauto].
    destruct (h =? "youtu.be"); [eauto|].
    destruct (in_list h ["www.youtube.com"; "youtube.com"]); [|eauto].
    destruct (path p =? "/watch") eqn:Hw.
    + apply String.eqb_eq in Hw.
      destruct (dict_get (parse_qs (query p)) "v") as [vs|] eqn:Hv.
      * destruct (dict_get_good _ _ _ (parse_qs_good _) Hv)
          as (v0 & more & -> & _). eauto.
      * right. left. eauto.
    + destruct (prefix "/embed/" (path p)) eqn:He.
      * destruct (prefix_append _ _ He) as [rest ->].
        rewrite (third_segment_after_marker "/embed/" rest) by auto. eauto.
      * destruct (prefix "/v/" (path p)) eqn:Hv; [|eauto].
        destruct (prefix_append _ _ Hv) as [rest ->].
        rewrite (third_segment_after_marker "/v/" rest) by auto. eauto.
  - destruct (urlparse_raises _ _ Hp) as [msg ->]. eauto.
Qed.

(** C2. The resolver is not total: on a primary-host URL with path /watch
    and no (or only a blank) [v] parameter the subscript [['v']] raises
    [KeyError], and a URL with an unbalanced bracket in its host makes
    [urlparse] raise [ValueError]; neither is turned into [None].  The
    fetcher then reports an unexpected error instead of an invalid URL. *)
Theorem watch_without_v_raises_key_error :
  extract_video_id "https://www.youtube.com/watch" = Raise (KeyError "v")
  /\ extract_video_id "https://www.youtube.com/watch?v=" = Raise (KeyError "v")
  /\ extract_video_id "http://[::1" = Raise (ValueError "Invalid IPv6 URL")
  /\ forall api language,
       get_transcript_text api "https://www.youtube.com/watch" language
       = ([st_error "Error fetching transcript: 'v'"], Ret None).
Proof. repeat split; vm_compute; reflexivity. Qed.

(** C3. The resolver on each accepted shape returns the identifier in the
    URL, and on another host or path it returns [None]; but a primary-host
    /watch URL whose query has no [v] parameter, which is none of the
    accepted shapes, raises [KeyError] instead of returning [None]. *)
Theorem accepted_shapes_resolve_but_watch_without_v_raises :
  extract_video_id "https://youtu.be/xyz789" = Ret (Some "xyz789")
  /\ extract_video_id "https://www.youtube.com/watch?v=abc123" = Ret (Some "abc123")
  /\ extract_video_id "https://youtube.com/watch?t=5&v=abc123&v=other" = Ret (Some "abc123")
  /\ extract_video_id "https://www.youtube.com/embed/abc123?start=5" = Ret (Some "abc123")
  /\ extract_video_id "https://youtube.com/v/abc123" = Ret (Some "abc123")
  /\ extract_video_id "https://example.com/foo" = Ret None
  /\ extract_video_id "https://www.youtube.com/shorts/abc123" = Ret None
  /\ extract_video_id "https://youtube.com/watch?list=PL123" = Raise (KeyError "v").
Proof. repeat split; vm_compute; reflexivity. Qed.

(** C4, as the specification states it, fails: for [https://youtu.be/] the
    resolver returns the empty string, not [None]. *)
Lemma bare_short_link_resolves_to_empty :
  ~ (forall url id, extract_video_id url = Ret (Some id) -> id <> "").
Proof.
  intros H.
  apply (H "https://youtu.be/" ""); [vm_compute; reflexivity | reflexivity].
Qed.

Lemma slice_from_1_empty (s : string) :
  PyStr.slice_from 1 s = "" <-> (String.length s <=? 1)%nat = true.
Proof.
  destruct s as [|a [|b r]]; simpl; split; intros; try reflexivity;
    discriminate.
Qed.

(** C4, amended. An identifier the resolver produces is empty exactly for a
    short-link URL whose path has at most one character and for an /embed/
    or /v/ URL with an empty segment after the marker; every other
    identifier is non-empty.  The fetcher treats the empty identifier like
    [None]: it reports an invalid URL and calls no service. *)
Theorem identifier_empty_only_when_url_names_none
  (url id : string) (H : extract_video_id url = Ret (Some id)) :
  (id = "" <-> exists p, urlparse url = Ret p /\ names_no_identifier p = true)
  /\ (id = "" ->
      forall api language,
        get_transcript_text api url language
        = ([st_error "Invalid YouTube URL"], Ret None)).
Proof.
  split.
  - unfold extract_video_id in H.
    destruct (urlparse url) as [p|e] eqn:Hp; [|discriminate].
    assert (G : id = "" <-> names_no_identifier p = true).
    { unfold names_no_identifier.
      destruct (hostname p) as [h|]; [|discriminate].
      destruct (h =? "youtu.be").
      - injection H as <-. apply slice_from_1_empty.
      - destruct (in_list h ["www.youtube.com"; "youtube.com"]);
          [|discriminate].
        destruct (path p =? "/watch") eqn:Hw.
        + apply String.eqb_eq in Hw. rewrite Hw. simpl.
          destruct (dict_get (parse_qs (query p)) "v") as [vs|] eqn:Hv;
            [|discriminate].
          destruct (dict_get_good _ _ _ (parse_qs_good _) Hv)
            as (v0 & rest & -> & Hne).
          injection H as <-. split; [congruence | discriminate].
        + remember (nth_error (PyStr.split "/" (path p)) 2) as third.
          cbn [andb].
          destruct (prefix "/embed/" (path p)); cbn [orb andb].
          * destruct third as [seg|]; [|discriminate].
            injection H as <-. symmetry. apply String.eqb_eq.
          * destruct (prefix "/v/" (path p)); [|discriminate].
            destruct third as [seg|]; [|discriminate].
            injection H as <-. symmetry. apply String.eqb_eq. }
    split.
    + intros Hid. exists p. split; [reflexivity | apply G, Hid].
    + intros (p' & Hp' & Hn). injection Hp' as <-. apply G, Hn.
  - intros -> api language. unfold get_transcript_text.
    rewrite H. reflexivity.
Qed.

Lemma identifier_empty_only_when_url_names_none_witness :
  extract_video_id "https://www.youtube.com/embed/" = Ret (Some "")
  /\ (("" = "" <-> exists p, urlparse "https://www.youtube.com/embed/" = Ret p
                             /\ names_no_identifier p = true)
      /\ ("" = "" ->
          forall api language,
            get_transcript_text api "https://www.youtube.com/embed/" language
            = ([st_error "Invalid YouTube URL"], Ret None))).
Proof.
  split; [vm_compute; reflexivity|].
  apply (identifier_empty_only_when_url_names_none
           "https://www.youtube.com/embed/" "").
  vm_compute; reflexivity.
Defined.

(** ** Transcript fetcher *)

(** The loop body appends the trimmed text of exactly the entries the
    specification keeps; any other entry is skipped, by the test or by the
    exception [strip] raises on a value that is not a string. *)
Lemma entry_text_kept (e : value) :
  match kept_text e with
  | Some s => entry_text e = Ret (Some (PyStr.strip s))
  | None => entry_text e = Ret None \/ exists err, entry_text e = Raise err
  end.
Proof.
  destruct e as [| b | z | s | items | d]; simpl; auto.
  destruct (lookup "text" d) as [text|]; auto.
  destruct text as [| b | z | s | items | items]; simpl; auto.
  - destruct b; eauto.
  - destruct (z =? 0)%Z; simpl; eauto.
  - destruct (s =? ""); simpl; auto.
  - destruct items; eauto.
  - destruct items; eauto.
Qed.

Lemma collect_text_kept (entries : list value) (acc : list string) :
  collect_text entries acc
  = (acc ++ List.map PyStr.strip (kept_texts entries))%list.
Proof.
  revert acc. induction entries as [|e rest IH]; intros acc; simpl.
  - now rewrite app_nil_r.
  - pose proof (entry_text_kept e) as He.
    destruct (kept_text e) as [s|].
    + rewrite He, IH, <- app_assoc. reflexivity.
    + destruct He as [-> | [err ->]]; apply IH.
Qed.

(** Reading a track never raises: each failure is reported and gives [None]. *)
Lemma read_transcript_returns (transcript : Transcript) :
  exists r, snd (read_transcript transcript) = Ret r.
Proof.
  unfold read_transcript, try_except, call, bind.
  destruct (fetch transcript) as [data|e]; simpl; [|eauto].
  destruct (truthy data); simpl; [|eauto].
  destruct data; simpl; eauto.
  destruct (collect_text items []); simpl; eauto.
Qed.

(** What reading a track gives once [fetch] has returned a non-empty list. *)
Lemma read_transcript_entries (transcript : Transcript) (entries : list value) :
  fetch transcript = Ret (VList entries) -> entries <> [] ->
  read_transcript transcript
  = match kept_texts entries with
    | [] => ([call_fetch;
              st_error "No valid transcript text found in the video"],
             Ret None)
    | _ :: _ => ([call_fetch], Ret (Some (transcript_document entries)))
    end.
Proof.
  intros Hf Hne. unfold read_transcript, try_except, call, bind.
  rewrite Hf. destruct entries as [|e rest]; [congruence|].
  cbn -[collect_text kept_texts]. rewrite collect_text_kept.
  cbn -[kept_texts]. unfold transcript_document.
  destruct (kept_texts (e :: rest)); reflexivity.
Qed.

Lemma join_blank (n : nat) : PyStr.join " " (repeat "" (S n)) = blanks n.
Proof.
  induction n as [|n IH]; [reflexivity|].
  change (repeat "" (S (S n))) with ("" :: repeat "" (S n)).
  cbn [PyStr.join repeat]. cbn [PyStr.join repeat] in IH. rewrite IH.
  reflexivity.
Qed.

Lemma whitespace_only_texts (entries : list value) :
  Forall whitespace_only entries ->
  exists texts,
    kept_texts entries = texts
    /\ List.length texts = List.length entries
    /\ List.map PyStr.strip texts = repeat "" (List.length entries).
Proof.
  induction 1 as [|e rest He _ IH]; simpl.
  - exists []. auto.
  - destruct He as (d & s & -> & Hl & Hne & Hs). simpl. rewrite Hl.
    apply String.eqb_neq in Hne. rewrite Hne.
    destruct IH as (texts & -> & Hlen & Hmap).
    eexists. split; [reflexivity|]. simpl. rewrite Hlen, Hs, Hmap. auto.
Qed.

Section Listed.

Variables (api : TranscriptApi) (youtube_url language video_id : string).
Variable transcript_list : TranscriptList.
Hypothesis resolved : extract_video_id youtube_url = Ret (Some video_id).
Hypothesis identifier : video_id <> "".
Hypothesis listed : list_transcripts api video_id = Ret transcript_list.

(** Past the resolver and the listing, the fetcher selects a track and, when
    one is found, reads it. *)
Lemma get_transcript_text_listed :
  get_transcript_text api youtube_url language
  = match select_transcript transcript_list language with
    | (selection, Ret (Some transcript)) =>
        ((call_list_transcripts video_id :: selection)
           ++ fst (read_transcript transcript),
         snd (read_transcript transcript))%list
    | (selection, _) => (call_list_transcripts video_id :: selection, Ret None)
    end.
Proof.
  unfold get_transcript_text, lift. rewrite resolved.
  apply String.eqb_neq in identifier.
  unfold bind at 1. unfold falsy. rewrite identifier.
  unfold call. rewrite listed. unfold bind at 1.
  assert (Hsel : exists selection r,
             select_transcript transcript_list language = (selection, Ret r)).
  { unfold select_transcript, try_except, call, bind.
    destruct (find_transcript transcript_list [language]); simpl; eauto.
    destruct (find_transcript transcript_list ["en"]); simpl; eauto. }
  destruct Hsel as (selection & r & ->). unfold bind.
  destruct r as [transcript|]; simpl; [|now rewrite app_nil_r].
  destruct (read_transcript_returns transcript) as [r Hr].
  destruct (read_transcript transcript) as [log out]. simpl in *.
  rewrite Hr. reflexivity.
Qed.

(** C7. When the lookup of the preferred language fails, the fetcher looks
    up English: if that track exists it shows the fallback warning and goes
    on to read the English track; if that lookup fails too it reports an
    error carrying the cause of this second failure and returns nothing. *)
Theorem falls_back_to_english (cause : exn)
  (missing : find_transcript transcript_list [language] = Raise cause) :
  (forall english, find_transcript transcript_list ["en"] = Ret english ->
     get_transcript_text api youtube_url language
     = ([call_list_transcripts video_id;
         call_find_transcript [language];
         call_find_transcript ["en"];
         st_warning "Transcript not available in selected language. Using English instead."]
          ++ fst (read_transcript english),
        snd (read_transcript english))%list)
  /\ (forall cause2, find_transcript transcript_list ["en"] = Raise cause2 ->
        get_transcript_text api youtube_url language
        = ([call_list_transcripts video_id;
            call_find_transcript [language];
            call_find_transcript ["en"];
            st_error ("Could not find transcript: " ++ str_exn cause2)],
           Ret None)).
Proof.
  split; intros x Hen; rewrite get_transcript_text_listed;
    unfold select_transcript, try_except, call, bind;
    rewrite missing, Hen; reflexivity.
Qed.

Section Selected.

Variables (selection : list event) (transcript : Transcript).
Variable entries : list value.
Hypothesis selected :
  select_transcript transcript_list language
  = (selection, Ret (Some transcript)).
Hypothesis fetched : fetch transcript = Ret (VList entries).

Lemma get_transcript_text_fetched :
  entries <> [] ->
  get_transcript_text api youtube_url language
  = match kept_texts entries with
    | [] => ((call_list_transcripts video_id :: selection)
               ++ [call_fetch;
                   st_error "No valid transcript text found in the video"],
             Ret None)%list
    | _ :: _ => ((call_list_transcripts video_id :: selection) ++ [call_fetch],
                 Ret (Some (transcript_document entries)))%list
    end.
Proof.
  intros Hne. rewrite get_transcript_text_listed, selected.
  rewrite (read_transcript_entries _ _ fetched Hne).
  destruct (kept_texts entries); reflexivity.
Qed.

(** C5. The document is the texts of the kept entries (structured records
    with a non-empty text field), each trimmed, joined with one space in
    their order; for the entries [" Hello "], [""], ["world"] it is
    ["Hello world"]. *)
Theorem document_is_trimmed_kept_texts_joined
  (some_kept : kept_texts entries <> []) :
  get_transcript_text api youtube_url language
  = ((call_list_transcripts video_id :: selection) ++ [call_fetch],
     Ret (Some (PyStr.join " " (List.map PyStr.strip (kept_texts entries)))))%list
  /\ get_transcript_text
       (mock_api [("en", VList [entry " Hello "; entry ""; entry "world"])])
       "https://www.youtube.com/watch?v=abc123" "en"
     = ([call_list_transcripts "abc123"; call_find_transcript ["en"];
         call_fetch],
        Ret (Some "Hello world")).
Proof.
  split; [|vm_compute; reflexivity].
  rewrite get_transcript_text_fetched.
  - fold (transcript_document entries).
    destruct (kept_texts entries); [congruence | reflexivity].
  - intros ->. apply some_kept. reflexivity.
Qed.

(** C6. When the fetched entries have been filtered and none is kept, the
    fetcher reports that no valid transcript text was found and returns no
    document. *)
Theorem no_kept_entry_reports_no_valid_text
  (data : entries <> []) (none_kept : kept_texts entries = []) :
  get_transcript_text api youtube_url language
  = ((call_list_transcripts video_id :: selection)
       ++ [call_fetch; st_error "No valid transcript text found in the video"],
     Ret None)%list.
Proof. rewrite (get_transcript_text_fetched data), none_kept. reflexivity. Qed.

(** C10. Entries whose text is not empty but all whitespace are kept (the
    test comes before the trimming), each becomes the empty string, and the
    fetcher returns their join, a string of spaces only (empty for one
    entry), with no error; next to other entries they leave leading or
    trailing spaces in the document. *)
Theorem whitespace_only_entries_give_blank_document
  (data : entries <> []) (blank : Forall whitespace_only entries) :
  get_transcript_text api youtube_url language
  = ((call_list_transcripts video_id :: selection) ++ [call_fetch],
     Ret (Some (blanks (List.length entries - 1))))%list
  /\ snd (get_transcript_text (mock_api [("en", VList [entry "  "])])
            "https://youtu.be/xyz789" "en")
     = Ret (Some "")
  /\ snd (get_transcript_text
            (mock_api [("en", VList [entry " "; entry "a"; entry "  "])])
            "https://youtu.be/xyz789" "en")
     = Ret (Some " a ").
Proof.
  split; [|split; vm_compute; reflexivity].
  rewrite (get_transcript_text_fetched data).
  destruct (whitespace_only_texts entries blank) as (texts & Hk & Hlen & Hmap).
  unfold transcript_document. rewrite Hk, Hmap.
  destruct entries as [|e rest]; [congruence|].
  destruct texts as [|t texts]; [discriminate|].
  cbn [List.length Nat.sub]. rewrite Nat.sub_0_r, join_blank. reflexivity.
Qed.

End Selected.
End Listed.

Lemma falls_back_to_english_witness :
  get_transcript_text (mock_api [("en", VList [entry "hello"])])
    "https://youtu.be/xyz789" "es"
  = ([call_list_transcripts "xyz789";
      call_find_transcript ["es"];
      call_find_transcript ["en"];
      st_warning "Transcript not available in selected language. Using English instead.";
      call_fetch],
     Ret (Some "hello")).
Proof.
  refine (proj1 (falls_back_to_english
                   (mock_api [("en", VList [entry "hello"])])
                   "https://youtu.be/xyz789" "es" "xyz789"
                   {| find_transcript :=
                        find_in_tracks [("en", VList [entry "hello"])] |}
                   _ _ _ NoTranscriptFound _)
                {| fetch := Ret (VList [entry "hello"]) |} _).
  - vm_compute; reflexivity.
  - discriminate.
  - reflexivity.
  - vm_compute; reflexivity.
  - vm_compute; reflexivity.
Defined.

Lemma document_is_trimmed_kept_texts_joined_witness :
  get_transcript_text
    (mock_api [("en", VList [entry " one "; VInt 7; entry "two  "])])
    "https://youtu.be/xyz789" "en"
  = ([call_list_transcripts "xyz789"; call_find_transcript ["en"]; call_fetch],
     Ret (Some "one two")).
Proof.
  refine (proj1 (document_is_trimmed_kept_texts_joined
                   (mock_api [("en", VList [entry " one "; VInt 7;
                                            entry "two  "])])
                   "https://youtu.be/xyz789" "en" "xyz789"
                   {| find_transcript :=
                        find_in_tracks [("en", VList [entry " one "; VInt 7;
                                                      entry "two  "])] |}
                   _ _ _
                   [call_find_transcript ["en"]]
                   {| fetch := Ret (VList [entry " one "; VInt 7;
                                           entry "two  "]) |}
                   [entry " one "; VInt 7; entry "two  "] _ _ _)).
  - vm_compute; reflexivity.
  - discriminate.
  - reflexivity.
  - vm_compute; reflexivity.
  - reflexivity.
  - vm_compute; discriminate.
Defined.

Lemma no_kept_entry_reports_no_valid_text_witness :
  get_transcript_text
    (mock_api [("en", VList [entry ""; VStr "text"; VDict [("text", VInt 5)];
                             VDict [("start", VInt 0)]])])
    "https://youtu.be/xyz789" "en"
  = ([call_list_transcripts "xyz789"; call_find_transcript ["en"]; call_fetch;
      st_error "No valid transcript text found in the video"],
     Ret None).
Proof.
  refine (no_kept_entry_reports_no_valid_text
            (mock_api [("en", VList [entry ""; VStr "text";
                                     VDict [("text", VInt 5)];
                                     VDict [("start", VInt 0)]])])
            "https://youtu.be/xyz789" "en" "xyz789"
            {| find_transcript :=
                 find_in_tracks [("en", VList [entry ""; VStr "text";
                                               VDict [("text", VInt 5)];
                                               VDict [("start", VInt 0)]])] |}
            _ _ _
            [call_find_transcript ["en"]]
            {| fetch := Ret (VList [entry ""; VStr "text";
                                    VDict [("text", VInt 5)];
                                    VDict [("start", VInt 0)]]) |}
            [entry ""; VStr "text"; VDict [("text", VInt 5)];
             VDict [("start", VInt 0)]] _ _ _ _).
  - vm_compute; reflexivity.
  - discriminate.
  - reflexivity.
  - vm_compute; reflexivity.
  - reflexivity.
  - discriminate.
  - vm_compute; reflexivity.
Defined.

Lemma whitespace_only_entry (s : string) :
  s <> "" -> PyStr.strip s = "" -> whitespace_only (entry s).
Proof.
  intros Hne Hs. exists [("text", VStr s)], s. repeat split; assumption.
Qed.

Lemma whitespace_only_entries_give_blank_document_witness :
  get_transcript_text
    (mock_api [("en", VList [entry "  "; entry (String "009" ""); entry " "])])
    "https://youtu.be/xyz789" "en"
  = ([call_list_transcripts "xyz789"; call_find_transcript ["en"]; call_fetch],
     Ret (Some "  ")).
Proof.
  refine (proj1 (whitespace_only_entries_give_blank_document
                   (mock_api [("en", VList [entry "  ";
                                            entry (String "009" "");
                                            entry " "])])
                   "https://youtu.be/xyz789" "en" "xyz789"
                   {| find_transcript :=
                        find_in_tracks [("en", VList [entry "  ";
                                                      entry (String "009" "");
                                                      entry " "])] |}
                   _ _ _
                   [call_find_transcript ["en"]]
                   {| fetch := Ret (VList [entry "  "; entry (String "009" "");
                                           entry " "]) |}
                   [entry "  "; entry (String "009" ""); entry " "] _ _ _ _)).
  - vm_compute; reflexivity.
  - discriminate.
  - reflexivity.
  - vm_compute; reflexivity.
  - reflexivity.
  - discriminate.
  - repeat constructor;
      (apply whitespace_only_entry; [discriminate | vm_compute; reflexivity]).
Defined.

(** C1. The button handler calls the fetcher without the language chosen in
    the select box, so the fetcher runs with its default [en]: with Spanish
    selected and a Spanish track available, the only lookup is for English
    and the English transcript is summarised, whereas the fetcher given the
    selection would have read the Spanish track. *)
Theorem selected_language_is_not_passed_on :
  let api := mock_api [("es", VList [entry "hola"]);
                       ("en", VList [entry "hello"])] in
  (forall service model youtube_url language summary_length,
      on_generate_summary service model youtube_url language summary_length
      = on_generate_summary service model youtube_url default_language
          summary_length)
  /\ on_generate_summary api echo_model "https://youtu.be/xyz789" "es" Medium
     = ([call_list_transcripts "xyz789";
         call_find_transcript ["en"];
         call_fetch;
         call_generate_content (DEFAULT_PROMPT Medium ++ "hello");
         st_subheader "Video Summary";
         st_markdown (DEFAULT_PROMPT Medium ++ "hello")],
        Ret tt)
  /\ get_transcript_text api "https://youtu.be/xyz789" "es"
     = ([call_list_transcripts "xyz789"; call_find_transcript ["es"];
         call_fetch],
        Ret (Some "hola")).
Proof. repeat split; vm_compute; reflexivity. Qed.

(** ** Summary generator *)

Lemma contains_str_substring (sub s : string) :
  PyStr.contains_str sub s = true -> Substring sub s.
Proof.
  induction s as [|c s IH]; intros H.
  - change (prefix sub "" || false = true) in H.
    apply orb_true_iff in H. destruct H as [H|H]; [|discriminate].
    destruct (prefix_append _ _ H) as [rest ->]. exists "", rest. reflexivity.
  - change (prefix sub (String c s) || PyStr.contains_str sub s = true) in H.
    apply orb_true_iff in H. destruct H as [H|H].
    + destruct (prefix_append _ _ H) as [rest ->]. exists "", rest.
      reflexivity.
    + destruct (IH H) as (before & after & ->).
      exists (String c before), after. reflexivity.
Qed.

(** C8. The directive for Short contains "max 100 words", for Medium
    "max 250 words" and for Long "max 500 words": it contains the
    instruction [length_prompts] maps the length to. *)
Theorem directive_contains_word_limit :
  Substring "max 100 words" (DEFAULT_PROMPT Short)
  /\ Substring "max 250 words" (DEFAULT_PROMPT Medium)
  /\ Substring "max 500 words" (DEFAULT_PROMPT Long)
  /\ forall summary_length,
       Substring (length_prompts summary_length)
                 (DEFAULT_PROMPT summary_length).
Proof.
  repeat split; try (apply contains_str_substring; vm_compute; reflexivity).
  intros []; apply contains_str_substring; vm_compute; reflexivity.
Qed.

(** C9. The generation service is called once, with the directive followed
    directly by the transcript; a service that echoes its input makes the
    summary the directive with the transcript appended, from
    [generate_summary] alone and through the whole button handler. *)
Theorem generation_input_is_directive_then_transcript :
  (forall model transcript prompt,
      exists shown,
        fst (generate_summary model transcript prompt)
        = call_generate_content (prompt ++ transcript) :: shown
        /\ forall input, ~ In (call_generate_content input) shown)
  /\ (forall transcript prompt,
         generate_summary echo_model transcript prompt
         = ([call_generate_content (prompt ++ transcript)],
            Ret (Some (prompt ++ transcript))))
  /\ on_generate_summary
       (mock_api [("en", VList [entry "first line"; entry "second line"])])
       echo_model "https://www.youtube.com/watch?v=abc123" "en" Medium
     = ([call_list_transcripts "abc123"; call_find_transcript ["en"];
         call_fetch;
         call_generate_content
           (DEFAULT_PROMPT Medium ++ "first line second line");
         st_subheader "Video Summary";
         st_markdown (DEFAULT_PROMPT Medium ++ "first line second line")],
        Ret tt).
Proof.
  split; [|split].
  - intros model transcript prompt.
    unfold generate_summary, try_except, call, bind.
    destruct (model (prompt ++ transcript)) as [text|e]; simpl.
    + exists []. split; [reflexivity | intros input []].
    + eexists. split; [reflexivity|].
      intros input [H|[]]. discriminate.
  - reflexivity.
  - vm_compute; reflexivity.
Qed.

(** * Further properties *)

(** ** Strings built by concatenation *)

Lemma all_absent (p : ascii -> bool) (c : ascii) (s : string) :
  PyStr.all p s = true -> p c = false -> PyStr.contains c s = false.
Proof.
  intros Hall Hc. induction s as [|a s IH]; simpl in *; [reflexivity|].
  apply andb_true_iff in Hall. destruct Hall as [Ha Hs].
  destruct (Ascii.eqb a c) eqn:E; [|auto].
  apply Ascii.eqb_eq in E. congruence.
Qed.

Lemma contains_append (c : ascii) (a b : string) :
  PyStr.contains c (a ++ b) = PyStr.contains c a || PyStr.contains c b.
Proof.
  induction a as [|x a IH]; simpl; [reflexivity|].
  rewrite IH. apply orb_assoc.
Qed.

Lemma find_absent (c : ascii) (s : string) :
  PyStr.contains c s = false -> PyStr.find c s = None.
Proof.
  induction s as [|a s IH]; simpl; [reflexivity|].
  destruct (Ascii.eqb a c); simpl; [discriminate|].
  intros H. rewrite (IH H). reflexivity.
Qed.

Lemma rfind_absent (c : ascii) (s : string) :
  PyStr.contains c s = false -> PyStr.rfind c s = None.
Proof.
  induction s as [|a s IH]; simpl; [reflexivity|].
  destruct (Ascii.eqb a c); simpl; [discriminate|].
  intros H. rewrite (IH H). reflexivity.
Qed.

Lemma remove_absent (c : ascii) (s : string) :
  PyStr.contains c s = false -> PyStr.remove c s = s.
Proof.
  induction s as [|a s IH]; simpl; [reflexivity|].
  destruct (Ascii.eqb a c); simpl; [discriminate|].
  intros H. rewrite (IH H). reflexivity.
Qed.

Lemma replace_absent (c d : ascii) (s : string) :
  PyStr.contains c s = false -> PyStr.replace c d s = s.
Proof.
  unfold PyStr.replace.
  induction s as [|a s IH]; simpl; [reflexivity|].
  destruct (Ascii.eqb a c); simpl; [discriminate|].
  intros H. rewrite (IH H). reflexivity.
Qed.

Lemma split_absent (c : ascii) (s : string) :
  PyStr.contains c s = false -> PyStr.split c s = [s].
Proof.
  induction s as [|a s IH]; simpl; [reflexivity|].
  destruct (Ascii.eqb a c); simpl; [discriminate|].
  intros H. rewrite (IH H). reflexivity.
Qed.

(** The first occurrence of [c] in [a ++ String c b], when [a] has none. *)
Lemma find_after (c : ascii) (a b : string) :
  PyStr.contains c a = false ->
  PyStr.find c (a ++ String c b) = Some (String.length a).
Proof.
  induction a as [|x a IH]; simpl.
  - rewrite Ascii.eqb_refl. reflexivity.
  - destruct (Ascii.eqb x c); simpl; [discriminate|].
    intros H. rewrite (IH H). reflexivity.
Qed.

Lemma find_append_absent (c : ascii) (a b : string) :
  PyStr.contains c a = false ->
  PyStr.find c (a ++ b) = option_map (Nat.add (String.length a)) (PyStr.find c b).
Proof.
  induction a as [|x a IH]; simpl.
  - destruct (PyStr.find c b); reflexivity.
  - destruct (Ascii.eqb x c); simpl; [discriminate|].
    intros H. rewrite (IH H). destruct (PyStr.find c b); reflexivity.
Qed.

Lemma slice_to_append (a b : string) :
  PyStr.slice_to (String.length a) (a ++ b) = a.
Proof. induction a as [|x a IH]; simpl; [destruct b; reflexivity | now rewrite IH]. Qed.

Lemma slice_from_append (a b : string) :
  PyStr.slice_from (String.length a) (a ++ b) = b.
Proof. induction a as [|x a IH]; simpl; [reflexivity | assumption]. Qed.

Lemma append_nil_r (s : string) : s ++ "" = s.
Proof. induction s as [|x s IH]; simpl; [reflexivity | now rewrite IH]. Qed.

Lemma append_assoc (a b c : string) : (a ++ b) ++ c = a ++ b ++ c.
Proof. induction a as [|x a IH]; simpl; [reflexivity | now rewrite IH]. Qed.

Lemma slice_from_after (c : ascii) (a b : string) :
  PyStr.slice_from (S (String.length a)) (a ++ String c b) = b.
Proof. induction a as [|x a IH]; simpl; [reflexivity | assumption]. Qed.

Lemma slice_from_plus (n : nat) (a b : string) :
  PyStr.slice_from (String.length a + n) (a ++ b) = PyStr.slice_from n b.
Proof. induction a as [|x a IH]; simpl; [reflexivity | assumption]. Qed.

Lemma partition_after (c : ascii) (a b : string) :
  PyStr.contains c a = false ->
  PyStr.partition c (a ++ String c b) = (a, true, b).
Proof.
  intros H. unfold PyStr.partition. rewrite (find_after c a b H).
  now rewrite slice_to_append, slice_from_after.
Qed.

Lemma partition_absent (c : ascii) (s : string) :
  PyStr.contains c s = false -> PyStr.partition c s = (s, false, "").
Proof. intros H. unfold PyStr.partition. now rewrite (find_absent c s H). Qed.

Lemma rpartition_absent (c : ascii) (s : string) :
  PyStr.contains c s = false -> PyStr.rpartition c s = ("", false, s).
Proof. intros H. unfold PyStr.rpartition. now rewrite (rfind_absent c s H). Qed.

Lemma length_append (a b : string) :
  String.length (a ++ b) = String.length a + String.length b.
Proof. induction a as [|x a IH]; simpl; [reflexivity | now rewrite IH]. Qed.

(** ** Plain URLs *)

Lemma isalpha_cases (c : ascii) : PyStr.isalpha c = true ->
  c0_control_or_space c = false /\ PyStr.isascii_char c = true.
Proof.
  unfold PyStr.isalpha, PyStr.isupper, PyStr.islower, PyStr.between, c0_control_or_space, PyStr.isascii_char.
  intros H. apply orb_true_iff in H.
  destruct H as [H|H]; apply andb_true_iff in H; destruct H as [H1 H2];
  apply N.leb_le in H1, H2; split; [apply N.leb_gt | apply N.ltb_lt | apply N.leb_gt | apply N.ltb_lt]; lia.
Qed.

Lemma splitnetloc_plain (host tail : string) :
  PyStr.contains "/" host = false -> PyStr.contains "?" host = false ->
  PyStr.contains "#" host = false ->
  (tail = "" \/ exists c r, tail = String c r /\ (c = "/" \/ c = "?" \/ c = "#")%char) ->
  _splitnetloc ("//" ++ host ++ tail) 2 = (host, tail).
Proof.
  intros H1 H2 H3 Htail. unfold _splitnetloc, PyStr.find_from.
  cbn [fold_left PyStr.slice_from append].
  rewrite !find_append_absent by assumption.
  assert (D : forall d, d = 2 + String.length host ->
            (PyStr.slice_to (d - 2) (host ++ tail), PyStr.slice_from d (String "/" (String "/" (host ++ tail)))) = (host, tail)).
  { intros d ->. cbn [PyStr.slice_from Nat.add].
    replace (S (S (String.length host)) - 2) with (String.length host) by lia.
    now rewrite slice_to_append, slice_from_append. }
  apply D. cbn [String.length]. rewrite length_append.
  destruct Htail as [-> | (c & r & -> & Hc)].
  - cbn. lia.
  - destruct (PyStr.find "/" (String c r)) as [i|] eqn:E1;
    destruct (PyStr.find "?" (String c r)) as [j|] eqn:E2;
    destruct (PyStr.find "#" (String c r)) as [k|] eqn:E3;
    cbn [option_map String.length];
    destruct Hc as [-> | [-> | ->]]; cbn in E1, E2, E3; try discriminate;
    repeat match goal with H : Some _ = Some _ |- _ => injection H as <- end; lia.
Qed.

Lemma urlsplit_plain (sch host pth : string) (qry : option string) :
  well_formed sch host pth qry ->
  urlsplit (plain_url sch host pth qry)
  = Ret (PyStr.lower sch, host, pth,
         match qry with Some q => q | None => "" end, "").
Proof.
  intros ((s0 & rest & -> & Halpha) & Hs & Hh & Hp & Hpc & Hq).
  destruct (isalpha_cases s0 Halpha) as [Hc0 Hascii].
  set (qpart := match qry with Some q => "?" ++ q | None => "" end).
  set (tail := pth ++ qpart).
  remember (String s0 rest) as sch eqn:Hsch.
  assert (Hurl : plain_url sch host pth qry = sch ++ String ":" ("//" ++ host ++ tail)).
  { unfold plain_url, tail, qpart. reflexivity. }
  assert (Hclean : forall c, scheme_char c = false -> host_char c = false ->
                     path_char c = false -> query_char c = false ->
                     Ascii.eqb ":" c = false -> Ascii.eqb "/" c = false -> Ascii.eqb "?" c = false ->
                     PyStr.contains c (plain_url sch host pth qry) = false).
  { intros c H1 H2 H3 H4 H5 H6 H7. unfold plain_url.
    rewrite !contains_append.
    rewrite (all_absent _ c _ Hs H1), (all_absent _ c _ Hh H2), (all_absent _ c _ Hpc H3).
    cbn [PyStr.contains append]. rewrite H5, H6. cbn [orb].
    destruct qry as [q|]; cbn [PyStr.contains append]; [|reflexivity].
    rewrite H7, (all_absent _ c _ Hq H4). reflexivity. }
  unfold urlsplit. cbv zeta.
  assert (A1 : PyStr.lstrip_chars c0_control_or_space (plain_url sch host pth qry) = plain_url sch host pth qry).
  { unfold plain_url. rewrite Hsch. cbn [append PyStr.lstrip_chars]. rewrite Hc0. reflexivity. }
  rewrite A1.
  rewrite (remove_absent "009") by (apply Hclean; reflexivity).
  rewrite (remove_absent "013") by (apply Hclean; reflexivity).
  rewrite (remove_absent "010") by (apply Hclean; reflexivity).
  assert (Hcolon : PyStr.contains ":" sch = false) by (apply (all_absent _ _ _ Hs); reflexivity).
  rewrite Hurl.
  rewrite (find_after ":" sch _ Hcolon).
  rewrite slice_to_append, slice_from_after.
  replace (match String.length sch with
           | 0 => ("", sch ++ String ":" ("//" ++ host ++ tail))
           | S _ =>
               match sch ++ String ":" ("//" ++ host ++ tail) with
               | "" => ("", sch ++ String ":" ("//" ++ host ++ tail))
               | String u0 _ =>
                   if PyStr.isascii_char u0 && PyStr.isalpha u0
                      && PyStr.all scheme_char sch
                   then (PyStr.lower sch, "//" ++ host ++ tail)
                   else ("", sch ++ String ":" ("//" ++ host ++ tail))
               end
           end)
    with (PyStr.lower sch, "//" ++ host ++ tail)
    by (rewrite Hs; rewrite Hsch; cbn [String.length append];
        rewrite Hascii, Halpha; reflexivity).
  change (PyStr.slice_to 2 ("//" ++ host ++ tail) =? "//") with true. cbv iota.
  assert (Hno : forall c, host_char c = false -> PyStr.contains c host = false)
    by (intros c Hc; apply (all_absent _ _ _ Hh Hc)).
  rewrite splitnetloc_plain; try (apply Hno; reflexivity).
  2: { unfold tail, qpart. destruct Hp as [-> | (r & ->)].
       - destruct qry; [right | left; reflexivity].
         exists "?"%char. eexists. split; [reflexivity | auto].
       - right. exists "/"%char. eexists. split; [reflexivity | auto]. }
  rewrite (Hno "["%char eq_refl), (Hno "]"%char eq_refl). cbn [andb orb negb].
  assert (Hp1 : PyStr.contains "#" pth = false) by (apply (all_absent _ _ _ Hpc); reflexivity).
  assert (Hp2 : PyStr.contains "?" pth = false) by (apply (all_absent _ _ _ Hpc); reflexivity).
  unfold tail, qpart. destruct qry as [q|].
  - assert (Hq1 : PyStr.contains "#" q = false) by (apply (all_absent _ _ _ Hq); reflexivity).
    rewrite !contains_append, Hp1, Hq1. cbn [PyStr.contains orb append].
    change (Ascii.eqb "?" "#") with false. cbn [orb].
    rewrite !contains_append, Hp2. cbn [PyStr.contains orb append].
    rewrite Ascii.eqb_refl. cbn [orb].
    rewrite (partition_after "?" pth q Hp2). reflexivity.
  - rewrite append_nil_r, Hp1, Hp2. reflexivity.
Qed.

Lemma urlparse_plain (sch host pth : string) (qry : option string) :
  well_formed sch host pth qry ->
  urlparse (plain_url sch host pth qry)
  = Ret (mkParseResult (PyStr.lower sch) host pth ""
           match qry with Some q => q | None => "" end "").
Proof.
  intros H. unfold urlparse. rewrite (urlsplit_plain _ _ _ _ H).
  destruct H as (_ & _ & _ & _ & Hpc & _).
  rewrite (all_absent _ ";" _ Hpc eq_refl), andb_false_r. reflexivity.
Qed.

Lemma hostname_plain (sch host pth prm qry frag : string) :
  PyStr.all host_char host = true -> host <> "" ->
  hostname (mkParseResult sch host pth prm qry frag) = Some (PyStr.lower host).
Proof.
  intros Hh Hne.
  assert (Hno : forall c, host_char c = false -> PyStr.contains c host = false)
    by (intros c Hc; apply (all_absent _ _ _ Hh Hc)).
  unfold hostname, _hostinfo. cbn [netloc].
  rewrite (rpartition_absent "@") by (apply Hno; reflexivity).
  rewrite (partition_absent "[") by (apply Hno; reflexivity).
  rewrite (partition_absent ":") by (apply Hno; reflexivity).
  apply String.eqb_neq in Hne. rewrite Hne.
  rewrite (partition_absent "%") by (apply Hno; reflexivity).
  cbn [append]. now rewrite append_nil_r.
Qed.

Lemma parse_qsl_pairs (qs : string) :
  parse_qsl qs = flat_map query_pair (PyStr.split "&" qs).
Proof.
  unfold parse_qsl.
  assert (G : forall args acc,
            fold_left
              (fun r name_value =>
                 if name_value =? "" then r
                 else
                   let '(nv0, has_eq, nv1) := PyStr.partition "=" name_value in
                   if negb has_eq then r
                   else if negb (String.length nv1 =? 0)%nat then
                     (r ++ [(unquote (PyStr.replace "+" " " nv0),
                             unquote (PyStr.replace "+" " " nv1))])%list
                   else r)
              args acc
            = (acc ++ flat_map query_pair args)%list).
  { induction args as [|a args IH]; intros acc; simpl.
    - now rewrite app_nil_r.
    - rewrite IH. unfold query_pair at 2.
      destruct (a =? ""); [reflexivity|].
      destruct (PyStr.partition "=" a) as [[nv0 has_eq] nv1].
      destruct (negb has_eq); [reflexivity|].
      destruct (negb (String.length nv1 =? 0)%nat); [|reflexivity].
      now rewrite <- app_assoc. }
  destruct (qs =? "") eqn:E.
  - apply String.eqb_eq in E. subst qs. reflexivity.
  - apply G.
Qed.

Lemma split_after (c : ascii) (a b : string) :
  PyStr.contains c a = false ->
  PyStr.split c (a ++ String c b) = a :: PyStr.split c b.
Proof.
  induction a as [|x a IH]; simpl.
  - now rewrite Ascii.eqb_refl.
  - destruct (Ascii.eqb x c); simpl; [discriminate|].
    intros H. now rewrite (IH H).
Qed.

Lemma dict_get_append (d : dict) (name value key : string) :
  dict_get (dict_append d name value) key
  = if name =? key
    then Some (match dict_get d key with
               | Some vs => vs ++ [value]
               | None => [value]
               end)%list
    else dict_get d key.
Proof.
  induction d as [|[k vs] d IH]; simpl.
  - destruct (name =? key); reflexivity.
  - destruct (k =? name) eqn:E1; simpl.
    + apply String.eqb_eq in E1. subst k.
      destruct (name =? key); reflexivity.
    + destruct (k =? key) eqn:E2; [|apply IH].
      apply String.eqb_eq in E2. subst k.
      rewrite String.eqb_sym, E1. reflexivity.
Qed.

(** [parse_qs] gathers under each name the values of its pairs, in order. *)
Lemma dict_get_parse_qs (qs key : string) :
  dict_get (parse_qs qs) key
  = match values_of key (parse_qsl qs) with
    | [] => None
    | vs => Some vs
    end.
Proof.
  unfold parse_qs.
  assert (G : forall pairs (d : dict),
            dict_get (fold_left
                        (fun parsed_result '(name, value) =>
                           dict_append parsed_result name value) pairs d) key
            = match dict_get d key with
              | Some vs => Some (vs ++ values_of key pairs)%list
              | None => match values_of key pairs with
                        | [] => None
                        | vs => Some vs
                        end
              end).
  { induction pairs as [|[n v] pairs IH]; intros d; simpl.
    - destruct (dict_get d key); [now rewrite app_nil_r | reflexivity].
    - rewrite IH, dict_get_append.
      destruct (n =? key); [|reflexivity].
      destruct (dict_get d key); [now rewrite <- app_assoc | reflexivity]. }
  rewrite G. reflexivity.
Qed.

Lemma lower_nonempty (s : string) : PyStr.lower s <> "" -> s <> "".
Proof. intros H ->. apply H. reflexivity. Qed.

Lemma parsed_plain (sch host pth : string) (qry : option string) (h : string) :
  well_formed sch host pth qry -> PyStr.lower host = h -> h <> "" ->
  exists p, urlparse (plain_url sch host pth qry) = Ret p
            /\ hostname p = Some h /\ path p = pth
            /\ query p = match qry with Some q => q | None => "" end.
Proof.
  intros H Hh Hne. eexists. split; [apply (urlparse_plain _ _ _ _ H)|].
  split; [|split; reflexivity].
  rewrite hostname_plain; [now rewrite Hh | apply H |].
  apply lower_nonempty. now rewrite Hh.
Qed.

Lemma plain_short_link
  (sch host pth : string) (qry : option string)
  (plain : well_formed sch host pth qry)
  (short : PyStr.lower host = "youtu.be") :
  extract_video_id (plain_url sch host pth qry)
  = Ret (Some (PyStr.slice_from 1 pth)).
Proof.
  destruct (parsed_plain _ _ _ _ _ plain short) as (p & Hp & Hh & Hpath & _);
    [discriminate|].
  unfold extract_video_id. rewrite Hp, Hh, Hpath. reflexivity.
Qed.

Lemma plain_watch
  (sch host : string) (qry : option string)
  (plain : well_formed sch host "/watch" qry)
  (primary : PyStr.lower host = "www.youtube.com"
             \/ PyStr.lower host = "youtube.com") :
  extract_video_id (plain_url sch host "/watch" qry)
  = match values_of "v"
            (parse_qsl match qry with Some q => q | None => "" end) with
    | v0 :: _ => Ret (Some v0)
    | [] => Raise (KeyError "v")
    end.
Proof.
  assert (H : exists h, PyStr.lower host = h /\ h <> ""
                        /\ in_list h ["www.youtube.com"; "youtube.com"] = true
                        /\ (h =? "youtu.be") = false).
  { destruct primary as [-> | ->]; eexists; repeat split; discriminate. }
  destruct H as (h & Hl & Hne & Hin & Hshort).
  destruct (parsed_plain _ _ _ _ _ plain Hl Hne) as (p & Hp & Hh & Hpath & Hq).
  unfold extract_video_id. rewrite Hp, Hh, Hshort, Hin, Hpath, Hq.
  cbn [String.eqb Ascii.eqb Bool.eqb]. rewrite dict_get_parse_qs.
  destruct (values_of "v" _); reflexivity.
Qed.

Lemma plain_marker
  (sch host marker rest : string) (qry : option string)
  (plain : well_formed sch host (marker ++ rest) qry)
  (primary : PyStr.lower host = "www.youtube.com"
             \/ PyStr.lower host = "youtube.com")
  (marked : marker = "/embed/" \/ marker = "/v/") :
  extract_video_id (plain_url sch host (marker ++ rest) qry)
  = Ret (Some (hd "" (PyStr.split "/" rest))).
Proof.
  assert (H : exists h, PyStr.lower host = h /\ h <> ""
                        /\ (h = "www.youtube.com" \/ h = "youtube.com")).
  { destruct primary as [-> | ->]; eexists; repeat split;
      try discriminate; auto. }
  destruct H as (h & Hl & Hne & Hprimary).
  destruct (parsed_plain _ _ _ _ _ plain Hl Hne) as (p & Hp & Hh & Hpath & _).
  apply (marker_resolves_to_next_segment _ p h marker rest); assumption.
Qed.

(** X7. A plain URL of any other host resolves to [None], whatever its path
    and query. *)
Theorem other_host_resolves_to_none
  (sch host pth : string) (qry : option string)
  (plain : well_formed sch host pth qry)
  (other : PyStr.lower host <> "youtu.be"
           /\ PyStr.lower host <> "www.youtube.com"
           /\ PyStr.lower host <> "youtube.com") :
  extract_video_id (plain_url sch host pth qry) = Ret None.
Proof.
  apply (other_host_not_found _ _ (urlparse_plain _ _ _ _ plain)).
  intros h Hh. destruct (string_dec host "") as [-> | Hne].
  - discriminate.
  - rewrite hostname_plain in Hh; [|apply plain | assumption].
    injection Hh as <-. exact other.
Qed.

Lemma all_append (p : ascii -> bool) (a b : string) :
  PyStr.all p (a ++ b) = PyStr.all p a && PyStr.all p b.
Proof.
  induction a as [|x a IH]; simpl; [reflexivity|].
  now rewrite IH, andb_assoc.
Qed.

Lemma all_implies (p q : ascii -> bool) (s : string) :
  (forall c, p c = true -> q c = true) ->
  PyStr.all p s = true -> PyStr.all q s = true.
Proof.
  intros Hpq. induction s as [|a s IH]; simpl; [reflexivity|].
  intros H. apply andb_true_iff in H. destruct H as [Ha Hs].
  now rewrite (Hpq a Ha), (IH Hs).
Qed.

Ltac absent_char H E :=
  cbn [PyStr.contains] in E;
  repeat (apply orb_true_iff in E; destruct E as [E|E]);
  try discriminate E;
  apply Ascii.eqb_eq in E; subst; vm_compute in H; discriminate H.

Lemma id_char_path_char (c : ascii) : id_char c = true -> path_char c = true.
Proof.
  intros H. unfold path_char.
  destruct (PyStr.contains c _) eqn:E; [|reflexivity]. absent_char H E.
Qed.

Lemma id_char_query_char (c : ascii) : id_char c = true -> query_char c = true.
Proof.
  intros H. unfold query_char.
  destruct (PyStr.contains c _) eqn:E; [|reflexivity]. absent_char H E.
Qed.

(** An identifier has none of the characters the parsers act on. *)
Lemma id_char_absent (id : string) (c : ascii) :
  PyStr.all id_char id = true -> PyStr.contains c "/&=+%" = true ->
  PyStr.contains c id = false.
Proof.
  intros Hid E. apply (all_absent _ _ _ Hid).
  destruct (id_char c) eqn:H; [|reflexivity]. absent_char H E.
Qed.

Lemma unquote_plain (s : string) :
  PyStr.contains "%" s = false -> unquote s = s.
Proof. intros H. unfold unquote. now rewrite H. Qed.

(** A leading [v=id] argument is the first pair of the parsed query. *)
Lemma parse_qsl_leading_v (id : string) :
  PyStr.all id_char id = true -> id <> "" ->
  parse_qsl ("v=" ++ id) = [("v", id)]
  /\ forall more,
       parse_qsl ("v=" ++ id ++ "&" ++ more) = ("v", id) :: parse_qsl more.
Proof.
  intros Hid Hne.
  assert (Hpair : query_pair ("v=" ++ id) = [("v", id)]).
  { unfold query_pair.
    change ("v=" ++ id) with ("v" ++ String "=" id).
    rewrite (partition_after "=" "v" id eq_refl). cbn [append String.eqb negb].
    destruct id as [|a id']; [congruence|]. cbn [String.length Nat.eqb negb].
    replace (unquote (PyStr.replace "+" " " "v")) with "v" by reflexivity.
    rewrite (replace_absent "+" " " (String a id'))
      by (apply (id_char_absent _ _ Hid); reflexivity).
    rewrite (unquote_plain (String a id'))
      by (apply (id_char_absent _ _ Hid); reflexivity).
    reflexivity. }
  assert (Hamp : PyStr.contains "&" ("v=" ++ id) = false).
  { cbn [PyStr.contains append]. cbn.
    apply (id_char_absent _ _ Hid). reflexivity. }
  split.
  - rewrite parse_qsl_pairs, split_absent by assumption.
    cbn [flat_map]. rewrite Hpair. reflexivity.
  - intros more. rewrite parse_qsl_pairs.
    change ("v=" ++ id ++ "&" ++ more) with ("v=" ++ id ++ String "&" more).
    rewrite <- append_assoc, split_after by assumption.
    cbn [flat_map]. rewrite Hpair, <- parse_qsl_pairs. reflexivity.
Qed.

Lemma well_formed_https (host pth : string) (qry : option string) :
  PyStr.all host_char host = true ->
  (pth = "" \/ exists rest, pth = String "/" rest) ->
  PyStr.all path_char pth = true ->
  match qry with Some q => PyStr.all query_char q = true | None => True end ->
  well_formed "https" host pth qry.
Proof.
  intros Hh Hp Hpc Hq. split; [|split; [reflexivity|]]; [eexists _, _; split; reflexivity | auto].
Qed.

(** X2. Round trip: an identifier of letters, digits, [-] and [_] is what the
    resolver returns for each URL form built from it: the short link, the
    /watch URL (also with further arguments after it), the /embed/ and the
    /v/ URL. *)
Theorem identifier_round_trip (id : string)
  (alphabet : PyStr.all id_char id = true) (present : id <> "") :
  extract_video_id ("https://youtu.be/" ++ id) = Ret (Some id)
  /\ extract_video_id ("https://www.youtube.com/watch?v=" ++ id) = Ret (Some id)
  /\ (forall more, PyStr.all query_char more = true ->
        extract_video_id ("https://www.youtube.com/watch?v=" ++ id ++ "&" ++ more)
        = Ret (Some id))
  /\ extract_video_id ("https://www.youtube.com/embed/" ++ id) = Ret (Some id)
  /\ extract_video_id ("https://www.youtube.com/v/" ++ id) = Ret (Some id).
Proof.
  pose proof (all_implies _ _ _ id_char_path_char alphabet) as Hpath.
  pose proof (all_implies _ _ _ id_char_query_char alphabet) as Hquery.
  assert (Hseg : hd "" (PyStr.split "/" id) = id).
  { rewrite split_absent; [reflexivity|].
    apply (id_char_absent _ _ alphabet). reflexivity. }
  split; [|split; [|split; [|split]]].
  - replace ("https://youtu.be/" ++ id)
      with (plain_url "https" "youtu.be" ("/" ++ id) None)
      by (unfold plain_url; cbn [append]; now rewrite append_nil_r).
    rewrite plain_short_link; [reflexivity | | reflexivity].
    apply well_formed_https; [reflexivity | right; eexists; reflexivity | | exact I].
    cbn [append PyStr.all]. now rewrite Hpath.
  - replace ("https://www.youtube.com/watch?v=" ++ id)
      with (plain_url "https" "www.youtube.com" "/watch" (Some ("v=" ++ id)))
      by reflexivity.
    rewrite plain_watch; [| | left; reflexivity].
    + cbv iota. rewrite (proj1 (parse_qsl_leading_v id alphabet present)).
      reflexivity.
    + apply well_formed_https; [reflexivity | right; eexists; reflexivity
                               | reflexivity |].
      cbn [append PyStr.all]. now rewrite Hquery.
  - intros more Hmore.
    replace ("https://www.youtube.com/watch?v=" ++ id ++ "&" ++ more)
      with (plain_url "https" "www.youtube.com" "/watch"
              (Some ("v=" ++ id ++ "&" ++ more)))
      by reflexivity.
    rewrite plain_watch; [| | left; reflexivity].
    + cbv iota. rewrite (proj2 (parse_qsl_leading_v id alphabet present)).
      reflexivity.
    + apply well_formed_https; [reflexivity | right; eexists; reflexivity
                               | reflexivity |].
      change ("v=" ++ id ++ "&" ++ more) with ("v=" ++ id ++ String "&" more).
      rewrite !all_append, Hquery. cbn [PyStr.all]. now rewrite Hmore.
  - replace ("https://www.youtube.com/embed/" ++ id)
      with (plain_url "https" "www.youtube.com" ("/embed/" ++ id) None)
      by (unfold plain_url; cbn [append]; now rewrite append_nil_r).
    rewrite plain_marker; auto.
    + now rewrite Hseg.
    + apply well_formed_https; [reflexivity | right; eexists; reflexivity
                               | | exact I].
      now rewrite all_append, Hpath.
  - replace ("https://www.youtube.com/v/" ++ id)
      with (plain_url "https" "www.youtube.com" ("/v/" ++ id) None)
      by (unfold plain_url; cbn [append]; now rewrite append_nil_r).
    rewrite plain_marker; auto.
    + now rewrite Hseg.
    + apply well_formed_https; [reflexivity | right; eexists; reflexivity
                               | | exact I].
      now rewrite all_append, Hpath.
Qed.

(** X3. A plain URL whose host is [youtu.be], in any letter case, resolves to
    its path without the first character, whatever the scheme and the
    query. *)
Theorem short_link_any_scheme_and_query
  (sch host pth : string) (qry : option string)
  (plain : well_formed sch host pth qry)
  (short : PyStr.lower host = "youtu.be") :
  extract_video_id (plain_url sch host pth qry)
  = Ret (Some (PyStr.slice_from 1 pth)).
Proof.
  destruct (parsed_plain _ _ _ _ _ plain short) as (p & Hp & Hh & Hpath & _);
    [discriminate|].
  unfold extract_video_id. rewrite Hp, Hh, Hpath. reflexivity.
Qed.

(** X4. A plain /watch URL of a primary host resolves to the value of the
    first [v] argument of its query that has a value, and raises
    [KeyError('v')] exactly when there is none. *)
Theorem watch_resolves_to_first_v_value
  (sch host : string) (qry : option string)
  (plain : well_formed sch host "/watch" qry)
  (primary : PyStr.lower host = "www.youtube.com"
             \/ PyStr.lower host = "youtube.com") :
  extract_video_id (plain_url sch host "/watch" qry)
  = match values_of "v"
            (parse_qsl match qry with Some q => q | None => "" end) with
    | v0 :: _ => Ret (Some v0)
    | [] => Raise (KeyError "v")
    end.
Proof.
  assert (H : exists h, PyStr.lower host = h /\ h <> ""
                        /\ in_list h ["www.youtube.com"; "youtube.com"] = true
                        /\ (h =? "youtu.be") = false).
  { destruct primary as [-> | ->]; eexists; repeat split; discriminate. }
  destruct H as (h & Hl & Hne & Hin & Hshort).
  destruct (parsed_plain _ _ _ _ _ plain Hl Hne) as (p & Hp & Hh & Hpath & Hq).
  unfold extract_video_id. rewrite Hp, Hh, Hshort, Hin, Hpath, Hq.
  cbn [String.eqb Ascii.eqb Bool.eqb]. rewrite dict_get_parse_qs.
  destruct (values_of "v" _); reflexivity.
Qed.

(** X5. A plain URL of a primary host whose path starts with [/embed/] or
    [/v/] resolves to the path segment after the marker; what follows the
    next slash is ignored. *)
Theorem marker_resolves_to_segment_after_it
  (sch host marker rest : string) (qry : option string)
  (plain : well_formed sch host (marker ++ rest) qry)
  (primary : PyStr.lower host = "www.youtube.com"
             \/ PyStr.lower host = "youtube.com")
  (marked : marker = "/embed/" \/ marker = "/v/") :
  extract_video_id (plain_url sch host (marker ++ rest) qry)
  = Ret (Some (hd "" (PyStr.split "/" rest))).
Proof.
  assert (H : exists h, PyStr.lower host = h /\ h <> ""
                        /\ (h = "www.youtube.com" \/ h = "youtube.com")).
  { destruct primary as [-> | ->]; eexists; repeat split;
      try discriminate; auto. }
  destruct H as (h & Hl & Hne & Hprimary).
  destruct (parsed_plain _ _ _ _ _ plain Hl Hne) as (p & Hp & Hh & Hpath & _).
  apply (marker_resolves_to_next_segment _ p h marker rest); assumption.
Qed.

(** Runs the fetcher through every branch. *)
Ltac run_fetcher api youtube_url language :=
  unfold get_transcript_text, select_transcript, read_transcript,
    try_except, bind, call, lift, emit, ret;
  destruct (extract_video_id youtube_url) as [[video_id|]|?] eqn:Hresolve;
    cbn -[String.eqb];
    [ destruct (video_id =? "") eqn:Hid; cbn -[String.eqb];
      [ | destruct (list_transcripts api video_id) as [transcript_list|?] eqn:Hlist;
          cbn -[String.eqb];
          [ destruct (find_transcript transcript_list [language]) as [track|?] eqn:Hfind;
              cbn -[String.eqb];
              [ | destruct (find_transcript transcript_list ["en"]) as [track|?] eqn:Hen;
                  cbn -[String.eqb] ];
              try (destruct (fetch track) as [data|?] eqn:Hfetch; cbn -[String.eqb];
                   [ destruct (truthy data) eqn:Htruthy; cbn -[String.eqb];
                     [ destruct data as [| | | |entries|]; cbn -[String.eqb];
                       try (destruct (collect_text entries []) eqn:Hkept;
                            cbn -[String.eqb])
                     | ]
                   | ])
          | ] ]
    | | ].

(** X8. The fetcher never raises.  When it returns a document no error is
    shown; when it returns [None] exactly one error is shown, and it is the
    last message. *)
Theorem fetcher_reports_each_failure_once
  (api : TranscriptApi) (youtube_url language : string) :
  match snd (get_transcript_text api youtube_url language) with
  | Ret (Some _) =>
      List.filter is_error (fst (get_transcript_text api youtube_url language)) = []
  | Ret None =>
      exists msg,
        List.filter is_error (fst (get_transcript_text api youtube_url language))
        = [st_error msg]
        /\ List.last (fst (get_transcript_text api youtube_url language))
             (st_warning "") = st_error msg
  | Raise _ => False
  end.
Proof.
  run_fetcher api youtube_url language; try reflexivity; eauto.
Qed.


(** X10. The fallback warning is shown exactly when the lookup of the
    requested language failed and the lookup of English succeeded. *)
Theorem warning_exactly_on_fallback
  (api : TranscriptApi) (youtube_url language : string) :
  In fallback_warning (fst (get_transcript_text api youtube_url language))
  <-> exists video_id transcript_list cause english,
        extract_video_id youtube_url = Ret (Some video_id)
        /\ video_id <> ""
        /\ list_transcripts api video_id = Ret transcript_list
        /\ find_transcript transcript_list [language] = Raise cause
        /\ find_transcript transcript_list ["en"] = Ret english.
Proof.
  unfold fallback_warning.
  assert (Hne : forall v, (v =? "") = false -> v <> "")
    by (intros v; apply String.eqb_neq).
  assert (Heq : forall v, (v =? "") = true -> v = "")
    by (intros v; apply String.eqb_eq).
  run_fetcher api youtube_url language;
    (split;
     [ intros H; cbn in H;
       repeat match type of H with _ \/ _ => destruct H as [H|H] end;
       try discriminate H; try contradiction;
       eauto 12
     | intros (v & tl & c & en & H1 & H2 & H3 & H4 & H5);
       try discriminate H1;
       injection H1 as <-;
       try (apply Heq in Hid; contradiction);
       rewrite H3 in *; try discriminate;
       match goal with H : Ret _ = Ret _ |- _ => injection H as <- end;
       try congruence; cbn; auto 10 ]).
Qed.

(** X11. What the fetcher reports about the data of the selected track
    before it filters: a failed fetch with its cause, data that is false
    ([None], [0], an empty string, list or dict) as missing, and any other
    value that is not a list as an invalid format. *)
Theorem fetched_data_is_validated
  (api : TranscriptApi) (youtube_url language video_id : string)
  (transcript_list : TranscriptList) (selection : list event)
  (transcript : Transcript)
  (resolved : extract_video_id youtube_url = Ret (Some video_id))
  (identifier : video_id <> "")
  (listed : list_transcripts api video_id = Ret transcript_list)
  (selected : select_transcript transcript_list language
              = (selection, Ret (Some transcript))) :
  let report msg :=
    get_transcript_text api youtube_url language
    = ((call_list_transcripts video_id :: selection)
         ++ [call_fetch; st_error msg], Ret None)%list in
  (forall cause, fetch transcript = Raise cause ->
                 report ("Failed to fetch transcript data: " ++ str_exn cause))
  /\ (forall data, fetch transcript = Ret data -> truthy data = false ->
                   report "No transcript data received")
  /\ (forall data, fetch transcript = Ret data -> truthy data = true ->
                   (forall entries, data <> VList entries) ->
                   report "Received invalid transcript data format").
Proof.
  cbv zeta.
  repeat split; intros x Hx;
    rewrite (get_transcript_text_listed _ _ _ _ _ resolved identifier listed),
      selected;
    unfold read_transcript, try_except, call, bind, emit, ret; rewrite Hx.
  - reflexivity.
  - intros ->. reflexivity.
  - intros -> Hnot. destruct x; try reflexivity.
    exfalso. apply (Hnot items). reflexivity.
Qed.

(** X12. The loop treats the entries one by one, in order: the texts
    collected from two sequences put together are those of the first
    followed by those of the second, after what was already collected; and
    it collects at most one text per entry. *)
Theorem collect_text_appends (first second : list value) (acc : list string) :
  collect_text (first ++ second) acc
  = (acc ++ collect_text first [] ++ collect_text second [])%list
  /\ List.length (collect_text first []) <= List.length first.
Proof.
  split.
  - rewrite !collect_text_kept. cbn [app]. f_equal.
    induction first as [|e rest IH]; cbn [app kept_texts List.map].
    + reflexivity.
    + destruct (kept_text e); cbn [List.map app]; now rewrite IH.
  - rewrite collect_text_kept. cbn [app]. rewrite length_map.
    induction first as [|e rest IH]; cbn [kept_texts List.length]; [lia|].
    destruct (kept_text e); cbn [List.length]; lia.
Qed.

Lemma substring_append_l (sub a b : string) :
  Substring sub a -> Substring sub (a ++ b).
Proof.
  intros (x & y & ->). exists x, (y ++ b).
  induction x as [|c x IH]; simpl.
  - induction sub as [|d sub IHs]; simpl; [reflexivity | now rewrite IHs].
  - now rewrite IH.
Qed.

Lemma substring_append_r (sub a b : string) :
  Substring sub b -> Substring sub (a ++ b).
Proof.
  intros (x & y & ->). exists (a ++ x), y.
  induction a as [|c a IH]; simpl; [reflexivity | now rewrite IH].
Qed.

Lemma substring_refl (s : string) : Substring s s.
Proof.
  exists "", "". simpl.
  induction s as [|c s IH]; simpl; [reflexivity | now rewrite <- IH].
Qed.

Lemma join_contains (sep x : string) (l : list string) :
  In x l -> Substring x (PyStr.join sep l).
Proof.
  induction l as [|y l IH]; [intros []|].
  intros [-> | Hin].
  - destruct l; cbn [PyStr.join].
    + apply substring_refl.
    + apply substring_append_l, substring_refl.
  - destruct l as [|z l]; [destruct Hin|].
    change (PyStr.join sep (y :: z :: l))
      with (y ++ sep ++ PyStr.join sep (z :: l)).
    apply substring_append_r, substring_append_r, IH, Hin.
Qed.

(** X13. No kept text is lost: for every entry with a non-empty string under
    [text], the trimmed text occurs in the joined document. *)
Theorem document_contains_every_kept_text
  (entries : list value) (d : list (string * value)) (text : string)
  (present : In (VDict d) entries)
  (field : lookup "text" d = Some (VStr text)) (nonempty : text <> "") :
  Substring (PyStr.strip text) (PyStr.join " " (collect_text entries [])).
Proof.
  rewrite collect_text_kept. cbn [app].
  apply join_contains, in_map.
  induction entries as [|e rest IH]; [destruct present|].
  cbn [kept_texts]. destruct present as [-> | Hin].
  - cbn [kept_text]. rewrite field. apply String.eqb_neq in nonempty.
    rewrite nonempty. left. reflexivity.
  - destruct (kept_text e); [right|]; apply IH, Hin.
Qed.

Lemma get_transcript_text_returns
  (api : TranscriptApi) (youtube_url language : string) :
  exists r, snd (get_transcript_text api youtube_url language) = Ret r.
Proof. run_fetcher api youtube_url language; eauto. Qed.

Lemma fetcher_never_generates
  (api : TranscriptApi) (youtube_url language : string) :
  List.filter is_generate (fst (get_transcript_text api youtube_url language))
  = [].
Proof. run_fetcher api youtube_url language; reflexivity. Qed.

(** The handler, once the fetcher has run. *)
Lemma on_generate_summary_fetched
  (api : TranscriptApi) (model : GenerativeModel)
  (youtube_url language : string) (summary_length : Length)
  (log : list event) (r : option string) :
  youtube_url <> "" ->
  get_transcript_text api youtube_url default_language = (log, Ret r) ->
  on_generate_summary api model youtube_url language summary_length
  = if falsy r then (log ++ [st_error "Could not retrieve transcript"], Ret tt)%list
    else
      let transcript := match r with Some s => s | None => "" end in
      let input := DEFAULT_PROMPT summary_length ++ transcript in
      match model input with
      | Raise e =>
          (log ++ [call_generate_content input;
                   st_error ("AI Generation Error: " ++ str_exn e);
                   st_error "Failed to generate summary"], Ret tt)%list
      | Ret summary =>
          if summary =? ""
          then (log ++ [call_generate_content input;
                        st_error "Failed to generate summary"], Ret tt)%list
          else (log ++ [call_generate_content input;
                        st_subheader "Video Summary";
                        st_markdown summary], Ret tt)%list
      end.
Proof.
  intros Hurl Hfetch. unfold on_generate_summary.
  apply String.eqb_neq in Hurl. rewrite Hurl. cbn [negb].
  rewrite Hfetch. unfold bind at 1.
  destruct (falsy r); cbn [negb]; [reflexivity|].
  unfold generate_summary, try_except, call, bind, emit, ret. cbv zeta.
  destruct (model _) as [summary|e]; cbn -[String.eqb DEFAULT_PROMPT];
    [|reflexivity].
  destruct (summary =? ""); reflexivity.
Qed.

(** X14. The button handler calls the generation service at most once:
    exactly when a URL was entered and the fetcher, run with the default
    language, returned a non-empty document; the input is the directive
    followed by that document. *)
Theorem generation_called_only_with_a_document
  (api : TranscriptApi) (model : GenerativeModel)
  (youtube_url language : string) (summary_length : Length) :
  List.filter is_generate
    (fst (on_generate_summary api model youtube_url language summary_length))
  = if youtube_url =? "" then []
    else match snd (get_transcript_text api youtube_url default_language) with
         | Ret (Some transcript) =>
             if transcript =? "" then []
             else [call_generate_content
                     (DEFAULT_PROMPT summary_length ++ transcript)]
         | _ => []
         end.
Proof.
  destruct (youtube_url =? "") eqn:Hurl.
  - unfold on_generate_summary. rewrite Hurl. reflexivity.
  - apply String.eqb_neq in Hurl.
    pose proof (fetcher_never_generates api youtube_url default_language) as Hno.
    destruct (get_transcript_text_returns api youtube_url default_language)
      as [r Hr].
    destruct (get_transcript_text api youtube_url default_language)
      as [log out] eqn:Hfetch.
    cbn [fst snd] in *. subst out.
    rewrite (on_generate_summary_fetched _ model _ language summary_length
               _ _ Hurl Hfetch).
    destruct r as [t|]; cbn [falsy].
    + destruct (t =? "").
      * cbn [fst]. rewrite filter_app, Hno. reflexivity.
      * cbv zeta. destruct (model _) as [s|e]; [destruct (s =? "")|];
          cbn [fst]; rewrite filter_app, Hno; reflexivity.
    + cbn [fst]. rewrite filter_app, Hno. reflexivity.
Qed.

Lemma last_after {A} (l m : list A) (a d : A) :
  List.last (l ++ a :: m) d = List.last (a :: m) d.
Proof.
  induction l as [|x l IH]; [reflexivity|].
  cbn [app]. rewrite <- IH. destruct (l ++ a :: m)%list eqn:E; [|reflexivity].
  destruct l; discriminate.
Qed.

(** X15. The button handler never raises, and its last message is one of
    four: the request to enter a URL (only for an empty URL), "Could not
    retrieve transcript", "Failed to generate summary", or the summary,
    which is then a non-empty text the generation service returned. *)
Theorem handler_ends_with_one_message
  (api : TranscriptApi) (model : GenerativeModel)
  (youtube_url language : string) (summary_length : Length) :
  let run := on_generate_summary api model youtube_url language summary_length in
  snd run = Ret tt
  /\ (List.last (fst run) (st_warning "")
      = st_warning "Please enter a YouTube URL first" /\ youtube_url = ""
      \/ List.last (fst run) (st_warning "")
         = st_error "Could not retrieve transcript"
      \/ List.last (fst run) (st_warning "")
         = st_error "Failed to generate summary"
      \/ exists summary,
           summary <> ""
           /\ List.last (fst run) (st_warning "") = st_markdown summary
           /\ exists input, model input = Ret summary).
Proof.
  cbv zeta. destruct (youtube_url =? "") eqn:Hurl.
  - unfold on_generate_summary. rewrite Hurl. apply String.eqb_eq in Hurl.
    split; [reflexivity | left; split; [reflexivity | assumption]].
  - apply String.eqb_neq in Hurl.
    destruct (get_transcript_text_returns api youtube_url default_language)
      as [r Hr].
    destruct (get_transcript_text api youtube_url default_language)
      as [log out] eqn:Hfetch.
    cbn [fst snd] in *. subst out.
    rewrite (on_generate_summary_fetched _ model _ language summary_length
               _ _ Hurl Hfetch).
    destruct (falsy r).
    + split; [reflexivity|]. right. left. cbn [fst]. apply last_after.
    + cbv zeta. destruct (model _) as [s|e] eqn:Hmodel.
      * destruct (s =? "") eqn:Hs; (split; [reflexivity|]); cbn [fst].
        -- right. right. left. apply last_after.
        -- right. right. right. exists s. apply String.eqb_neq in Hs.
           split; [assumption|]. split; [apply last_after | eauto].
      * split; [reflexivity|]. right. right. left. cbn [fst].
        apply last_after.
Qed.

Lemma fetcher_failure_log
  (api : TranscriptApi) (youtube_url language : string) :
  snd (get_transcript_text api youtube_url language) = Ret None ->
  exists msg,
    List.filter is_error (fst (get_transcript_text api youtube_url language))
    = [st_error msg].
Proof.
  run_fetcher api youtube_url language; intros H; try discriminate H; eauto.
Qed.

(** X16. With a non-empty document fetched, the handler calls the generation
    service and then: a failure of the service shows its cause and "Failed
    to generate summary"; an empty answer shows only the latter; any other
    answer is shown unchanged under the heading "Video Summary". *)
Theorem summary_outcomes
  (api : TranscriptApi) (model : GenerativeModel)
  (youtube_url language : string) (summary_length : Length)
  (log : list event) (transcript : string)
  (entered : youtube_url <> "")
  (fetched : get_transcript_text api youtube_url default_language
             = (log, Ret (Some transcript)))
  (document : transcript <> "") :
  let input := DEFAULT_PROMPT summary_length ++ transcript in
  let run := on_generate_summary api model youtube_url language summary_length in
  (forall cause, model input = Raise cause ->
     run = (log ++ [call_generate_content input;
                    st_error ("AI Generation Error: " ++ str_exn cause);
                    st_error "Failed to generate summary"], Ret tt)%list)
  /\ (model input = Ret "" ->
      run = (log ++ [call_generate_content input;
                     st_error "Failed to generate summary"], Ret tt)%list)
  /\ (forall summary, model input = Ret summary -> summary <> "" ->
        run = (log ++ [call_generate_content input;
                       st_subheader "Video Summary";
                       st_markdown summary], Ret tt)%list).
Proof.
  cbv zeta.
  rewrite (on_generate_summary_fetched _ model _ language summary_length
             _ _ entered fetched).
  apply String.eqb_neq in document. cbn [falsy]. rewrite document. cbv zeta.
  repeat split.
  - intros cause ->. reflexivity.
  - intros ->. reflexivity.
  - intros summary -> Hs. apply String.eqb_neq in Hs. rewrite Hs. reflexivity.
Qed.

(** X17. When the fetcher returns nothing, the page shows two errors, the
    fetcher's own and then "Could not retrieve transcript", and the handler
    calls no service beyond those the fetcher called. *)
Theorem fetch_failure_shows_two_errors
  (api : TranscriptApi) (model : GenerativeModel)
  (youtube_url language : string) (summary_length : Length)
  (entered : youtube_url <> "")
  (failed : snd (get_transcript_text api youtube_url default_language)
            = Ret None) :
  exists msg,
    List.filter is_error
      (fst (on_generate_summary api model youtube_url language summary_length))
    = [st_error msg; st_error "Could not retrieve transcript"]
    /\ List.filter is_call
         (fst (on_generate_summary api model youtube_url language
                 summary_length))
       = List.filter is_call
           (fst (get_transcript_text api youtube_url default_language)).
Proof.
  destruct (fetcher_failure_log _ _ _ failed) as [msg Hmsg].
  destruct (get_transcript_text api youtube_url default_language)
    as [log out] eqn:Hfetch.
  cbn [fst snd] in *. subst out.
  rewrite (on_generate_summary_fetched _ model _ language summary_length
             _ _ entered Hfetch).
  cbn [falsy fst]. exists msg. rewrite !filter_app, Hmsg.
  split; [reflexivity | apply app_nil_r].
Qed.

Lemma blanks_empty (n : nat) : blanks n = "" -> n = 0.
Proof. destruct n; [reflexivity | discriminate]. Qed.

(** X18. Whitespace-only entries at the button: a single such entry gives an
    empty document, which the handler reports as "Could not retrieve
    transcript" with no other error; two or more give a document of spaces,
    which is sent to the generation service after the directive. *)
Theorem blank_document_at_the_button
  (api : TranscriptApi) (model : GenerativeModel)
  (youtube_url language video_id : string) (summary_length : Length)
  (transcript_list : TranscriptList) (selection : list event)
  (transcript : Transcript) (entries : list value)
  (resolved : extract_video_id youtube_url = Ret (Some video_id))
  (identifier : video_id <> "")
  (listed : list_transcripts api video_id = Ret transcript_list)
  (selected : select_transcript transcript_list default_language
              = (selection, Ret (Some transcript)))
  (fetched : fetch transcript = Ret (VList entries))
  (blank : Forall whitespace_only entries) :
  let run := on_generate_summary api model youtube_url language summary_length in
  (List.length entries = 1 ->
     run = ((call_list_transcripts video_id :: selection)
              ++ [call_fetch; st_error "Could not retrieve transcript"],
            Ret tt)%list)
  /\ (2 <= List.length entries ->
        In (call_generate_content
              (DEFAULT_PROMPT summary_length
               ++ blanks (List.length entries - 1)))
           (fst run)).
Proof.
  cbv zeta.
  assert (entered : youtube_url <> "").
  { intros ->. vm_compute in resolved. discriminate resolved. }
  assert (Hdoc : entries <> [] ->
            get_transcript_text api youtube_url default_language
            = ((call_list_transcripts video_id :: selection) ++ [call_fetch],
               Ret (Some (blanks (List.length entries - 1))))%list).
  { intros Hne.
    rewrite (get_transcript_text_fetched _ _ _ _ _ resolved identifier listed
               _ _ _ selected fetched Hne).
    destruct (whitespace_only_texts entries blank)
      as (texts & Hk & Hlen & Hmap).
    unfold transcript_document. rewrite Hk, Hmap.
    destruct entries as [|e rest]; [congruence|].
    destruct texts as [|t texts]; [discriminate|].
    cbn [List.length Nat.sub]. rewrite Nat.sub_0_r, join_blank. reflexivity. }
  split; intros Hlen.
  - rewrite (on_generate_summary_fetched _ model _ language summary_length
               _ _ entered (Hdoc ltac:(intros ->; discriminate Hlen))).
    rewrite Hlen. cbn [Nat.sub blanks falsy String.eqb].
    rewrite <- app_assoc. reflexivity.
  - rewrite (on_generate_summary_fetched _ model _ language summary_length
               _ _ entered (Hdoc ltac:(intros ->; cbn in Hlen; lia))).
    destruct (List.length entries) as [|[|n]]; [lia | lia |].
    cbn [Nat.sub blanks falsy String.eqb]. cbv zeta.
    destruct (model _) as [s|e]; [destruct (s =? "")|]; cbn [fst];
      apply in_or_app; right; left; reflexivity.
Qed.

(** X19. For an entered URL the thumbnail block shows the image of the video
    exactly when the fetcher goes on to call the transcript service, and
    for the same identifier; otherwise it shows nothing, silently, also
    when the resolver raises, and the fetcher returns nothing without
    calling a service. *)
Theorem thumbnail_follows_the_fetcher_guard
  (api : TranscriptApi) (youtube_url language : string)
  (entered : youtube_url <> "") :
  (exists video_id,
      video_id <> ""
      /\ extract_video_id youtube_url = Ret (Some video_id)
      /\ show_thumbnail youtube_url
         = [st_image ("https://img.youtube.com/vi/" ++ video_id ++ "/0.jpg")
                     "Video Thumbnail" true]
      /\ hd_error (fst (get_transcript_text api youtube_url language))
         = Some (call_list_transcripts video_id))
  \/ (show_thumbnail youtube_url = []
      /\ List.filter is_call (fst (get_transcript_text api youtube_url language))
         = []
      /\ snd (get_transcript_text api youtube_url language) = Ret None).
Proof.
  unfold show_thumbnail. apply String.eqb_neq in entered. rewrite entered.
  cbn [negb].
  run_fetcher api youtube_url language; unfold falsy; rewrite ?Hid; cbn [negb];
    try (right; repeat split; reflexivity);
    left; exists video_id; apply String.eqb_neq in Hid;
    repeat split; auto.
Qed.

Lemma split_segments (c : ascii) (s : string) :
  Forall (fun seg => PyStr.contains c seg = false) (PyStr.split c s).
Proof.
  induction s as [|a s IH]; simpl.
  - constructor; [reflexivity | constructor].
  - destruct (Ascii.eqb a c) eqn:E.
    + constructor; [reflexivity | assumption].
    + destruct (PyStr.split c s) as [|h t]; inversion IH; subst;
        constructor; simpl; try rewrite E; auto.
Qed.

(** X6. On a primary host, an identifier taken from an /embed/ or /v/ path
    is a single path segment: it contains no slash. *)
Theorem marker_identifier_is_one_segment
  (url id h : string) (p : ParseResult)
  (parsed : urlparse url = Ret p) (host : hostname p = Some h)
  (primary : h = "www.youtube.com" \/ h = "youtube.com")
  (not_watch : path p <> "/watch")
  (resolved : extract_video_id url = Ret (Some id)) :
  PyStr.contains "/" id = false.
Proof.
  unfold extract_video_id in resolved. rewrite parsed, host in resolved.
  apply String.eqb_neq in not_watch.
  assert (Hseg : forall seg,
             nth_error (PyStr.split "/" (path p)) 2 = Some seg ->
             PyStr.contains "/" seg = false).
  { intros seg Hn. apply nth_error_In in Hn.
    pose proof (split_segments "/" (path p)) as Hall.
    rewrite Forall_forall in Hall. apply Hall, Hn. }
  assert (Hin : (h =? "youtu.be") = false
                /\ in_list h ["www.youtube.com"; "youtube.com"] = true)
    by (destruct primary; subst h; split; reflexivity).
  destruct Hin as [H1 H2]. rewrite H1, H2, not_watch in resolved.
  destruct (nth_error (PyStr.split "/" (path p)) 2) as [seg|] eqn:Hn.
  - destruct (prefix "/embed/" (path p));
      [|destruct (prefix "/v/" (path p)); [|discriminate]];
      injection resolved as <-; apply Hseg; reflexivity.
  - destruct (prefix "/embed/" (path p));
      [|destruct (prefix "/v/" (path p))]; discriminate.
Qed.

Lemma fetcher_resolved
  (api : TranscriptApi) (youtube_url language video_id : string) :
  extract_video_id youtube_url = Ret (Some video_id) -> video_id <> "" ->
  exists rest,
    fst (get_transcript_text api youtube_url language)
    = call_list_transcripts video_id :: rest
    /\ ~ In (st_error "Invalid YouTube URL") rest.
Proof.
  intros Hr Hne. apply String.eqb_neq in Hne.
  unfold get_transcript_text, select_transcript, read_transcript,
    try_except, bind, call, lift, emit, ret.
  rewrite Hr. cbn -[String.eqb]. rewrite Hne. cbn -[String.eqb].
  destruct (list_transcripts api video_id) as [transcript_list|?];
    cbn -[String.eqb];
    [ destruct (find_transcript transcript_list [language]) as [track|?];
      cbn -[String.eqb];
      [ | destruct (find_transcript transcript_list ["en"]) as [track|?];
          cbn -[String.eqb] ];
      try (destruct (fetch track) as [data|?]; cbn -[String.eqb];
           [ destruct (truthy data); cbn -[String.eqb];
             [ destruct data as [| | | |entries|]; cbn -[String.eqb];
               try (destruct (collect_text entries []); cbn -[String.eqb])
             | ]
           | ])
    | ];
    (eexists; split; [reflexivity|]);
    intros H; cbn in H;
    repeat match type of H with _ \/ _ => destruct H as [H|H] end;
    try contradiction; discriminate H.
Qed.

Lemma handler_log_extends_fetcher_log
  (api : TranscriptApi) (model : GenerativeModel)
  (youtube_url language : string) (summary_length : Length) :
  youtube_url <> "" ->
  exists tail,
    fst (on_generate_summary api model youtube_url language summary_length)
    = (fst (get_transcript_text api youtube_url default_language) ++ tail)%list
    /\ ~ In (st_error "Invalid YouTube URL") tail.
Proof.
  intros Hurl.
  destruct (get_transcript_text_returns api youtube_url default_language)
    as [r Hret].
  destruct (get_transcript_text api youtube_url default_language)
    as [log out] eqn:Hfetch.
  cbn [fst snd] in *. subst out.
  rewrite (on_generate_summary_fetched _ model _ language summary_length
             _ _ Hurl Hfetch).
  destruct (falsy r); [|cbv zeta; destruct (model _) as [s|e];
                        [destruct (s =? "")|]];
    cbn [fst]; (eexists; split; [reflexivity|]);
    intros H; cbn in H;
    repeat match type of H with _ \/ _ => destruct H as [H|H] end;
    try contradiction; discriminate H.
Qed.

(** X20. On a page whose button was pressed, a thumbnail means that the
    transcript service was asked for that very video, and the page does not
    say "Invalid YouTube URL". *)
Theorem thumbnail_excludes_invalid_url
  (api : TranscriptApi) (model : GenerativeModel)
  (youtube_url language : string) (summary_length : Length)
  (image caption : string) (width : bool)
  (thumbnail : In (st_image image caption width)
                  (page api model youtube_url language summary_length true)) :
  (exists video_id,
      image = "https://img.youtube.com/vi/" ++ video_id ++ "/0.jpg"
      /\ In (shown (call_list_transcripts video_id))
            (page api model youtube_url language summary_length true))
  /\ ~ In (shown (st_error "Invalid YouTube URL"))
          (page api model youtube_url language summary_length true).
Proof.
  unfold page in *. cbn [app] in thumbnail.
  destruct thumbnail as [H|[H|H]]; try discriminate H.
  apply in_app_or in H. destruct H as [H|H].
  2: { apply in_map_iff in H. destruct H as (e & He & _). discriminate He. }
  unfold show_thumbnail in *.
  destruct (youtube_url =? "") eqn:Hurl; [destruct H|]. cbn [negb] in *.
  apply String.eqb_neq in Hurl.
  destruct (extract_video_id youtube_url) as [[video_id|]|e] eqn:Hr;
    cbn [falsy negb] in *; try (destruct H; fail).
  destruct (video_id =? "") eqn:Hid; cbn [negb] in *; [destruct H|].
  apply String.eqb_neq in Hid.
  destruct H as [H|[]]. injection H as <- _ _.
  destruct (fetcher_resolved api youtube_url default_language video_id Hr Hid)
    as (rest & Hlog & Hrest).
  destruct (handler_log_extends_fetcher_log api model youtube_url language
              summary_length Hurl) as (tail & -> & Htail).
  rewrite Hlog. cbn [app List.map]. split.
  - exists video_id. split; [reflexivity|].
    right. right. right. left. reflexivity.
  - intros [H|[H|[H|[H|H]]]]; try discriminate H.
    apply in_map_iff in H. destruct H as (e & He & Hin).
    injection He as ->. apply in_app_or in Hin. tauto.
Qed.

(** ** Instances *)

Lemma well_formed_instance (s0 : ascii) (rest host tail : string)
    (qry : option string) :
  PyStr.isalpha s0 = true ->
  PyStr.all scheme_char (String s0 rest) = true ->
  PyStr.all host_char host = true ->
  PyStr.all path_char (String "/" tail) = true ->
  match qry with Some q => PyStr.all query_char q | None => true end = true ->
  well_formed (String s0 rest) host (String "/" tail) qry.
Proof.
  intros H1 H2 H3 H4 H5. repeat split; try assumption.
  - exists s0, rest. split; [reflexivity | assumption].
  - right. exists tail. reflexivity.
  - destruct qry; [assumption | exact I].
Qed.

Lemma short_link_any_scheme_and_query_witness :
  extract_video_id "HTTP://YouTu.BE/abc/def?t=5" = Ret (Some "abc/def").
Proof.
  refine (short_link_any_scheme_and_query
            "HTTP" "YouTu.BE" "/abc/def" (Some "t=5") _ _).
  - apply well_formed_instance; reflexivity.
  - reflexivity.
Defined.

Lemma watch_resolves_to_first_v_value_witness :
  extract_video_id "https://youtube.com/watch?feature=share&v=&v=abc123&v=zzz"
  = Ret (Some "abc123").
Proof.
  refine (watch_resolves_to_first_v_value
            "https" "youtube.com" (Some "feature=share&v=&v=abc123&v=zzz") _ _).
  - apply well_formed_instance; reflexivity.
  - right. reflexivity.
Defined.

Lemma marker_resolves_to_segment_after_it_witness :
  extract_video_id "https://WWW.youtube.com/embed/abc123/extra?start=5"
  = Ret (Some "abc123").
Proof.
  refine (marker_resolves_to_segment_after_it
            "https" "WWW.youtube.com" "/embed/" "abc123/extra"
            (Some "start=5") _ _ _).
  - apply well_formed_instance; reflexivity.
  - left. reflexivity.
  - left. reflexivity.
Defined.

Lemma other_host_resolves_to_none_witness :
  extract_video_id "https://m.youtube.com/watch?v=abc123" = Ret None.
Proof.
  refine (other_host_resolves_to_none
            "https" "m.youtube.com" "/watch" (Some "v=abc123") _ _).
  - apply well_formed_instance; reflexivity.
  - repeat split; intros H; vm_compute in H; discriminate H.
Defined.

Lemma identifier_round_trip_witness :
  extract_video_id "https://youtu.be/dQw4w9WgXcQ" = Ret (Some "dQw4w9WgXcQ")
  /\ extract_video_id "https://www.youtube.com/watch?v=a-b_C1&t=30s&list=PL1"
     = Ret (Some "a-b_C1").
Proof.
  split.
  - refine (proj1 (identifier_round_trip "dQw4w9WgXcQ" _ _)).
    + reflexivity.
    + discriminate.
  - refine (proj1 (proj2 (proj2 (identifier_round_trip "a-b_C1" _ _)))
              "t=30s&list=PL1" _).
    + reflexivity.
    + discriminate.
    + reflexivity.
Defined.

Lemma marker_identifier_is_one_segment_witness :
  PyStr.contains "/" "abc" = false.
Proof.
  refine (marker_identifier_is_one_segment
            "https://www.youtube.com/v/abc/def" "abc" "www.youtube.com"
            (mkParseResult "https" "www.youtube.com" "/v/abc/def" "" "" "")
            _ _ _ _ _).
  - vm_compute; reflexivity.
  - vm_compute; reflexivity.
  - left. reflexivity.
  - discriminate.
  - vm_compute; reflexivity.
Defined.

Lemma fetched_data_is_validated_witness :
  get_transcript_text (mock_api [("en", VDict [])]) "https://youtu.be/xyz789" "en"
  = ([call_list_transcripts "xyz789"; call_find_transcript ["en"]; call_fetch;
      st_error "No transcript data received"], Ret None).
Proof.
  refine (proj1 (proj2 (fetched_data_is_validated
                          (mock_api [("en", VDict [])])
                          "https://youtu.be/xyz789" "en" "xyz789"
                          {| find_transcript :=
                               find_in_tracks [("en", VDict [])] |}
                          [call_find_transcript ["en"]]
                          {| fetch := Ret (VDict []) |} _ _ _ _))
            (VDict []) _ _).
  - vm_compute; reflexivity.
  - discriminate.
  - reflexivity.
  - vm_compute; reflexivity.
  - reflexivity.
  - reflexivity.
Defined.

Lemma document_contains_every_kept_text_witness :
  Substring "world"
    (PyStr.join " " (collect_text [entry " Hello "; VInt 3; entry " world "] [])).
Proof.
  refine (document_contains_every_kept_text
            [entry " Hello "; VInt 3; entry " world "]
            [("text", VStr " world ")] " world " _ _ _).
  - right. right. left. reflexivity.
  - reflexivity.
  - discriminate.
Defined.

Lemma summary_outcomes_witness :
  on_generate_summary (mock_api [("en", VList [entry "hello"])]) echo_model
    "https://youtu.be/xyz789" "fr" Long
  = ([call_list_transcripts "xyz789"; call_find_transcript ["en"]; call_fetch;
      call_generate_content (DEFAULT_PROMPT Long ++ "hello");
      st_subheader "Video Summary";
      st_markdown (DEFAULT_PROMPT Long ++ "hello")], Ret tt).
Proof.
  refine (proj2 (proj2 (summary_outcomes
                          (mock_api [("en", VList [entry "hello"])]) echo_model
                          "https://youtu.be/xyz789" "fr" Long
                          [call_list_transcripts "xyz789";
                           call_find_transcript ["en"]; call_fetch]
                          "hello" _ _ _))
            (DEFAULT_PROMPT Long ++ "hello") _ _).
  - discriminate.
  - vm_compute; reflexivity.
  - discriminate.
  - reflexivity.
  - vm_compute; discriminate.
Defined.

Lemma fetch_failure_shows_two_errors_witness :
  exists msg,
    List.filter is_error
      (fst (on_generate_summary (mock_api []) echo_model
              "https://youtu.be/xyz789" "en" Short))
    = [st_error msg; st_error "Could not retrieve transcript"]
    /\ List.filter is_call
         (fst (on_generate_summary (mock_api []) echo_model
                 "https://youtu.be/xyz789" "en" Short))
       = List.filter is_call
           (fst (get_transcript_text (mock_api []) "https://youtu.be/xyz789"
                   default_language)).
Proof.
  refine (fetch_failure_shows_two_errors (mock_api []) echo_model
            "https://youtu.be/xyz789" "en" Short _ _).
  - discriminate.
  - vm_compute; reflexivity.
Defined.

Lemma blank_document_at_the_button_witness :
  on_generate_summary (mock_api [("en", VList [entry "  "])]) echo_model
    "https://youtu.be/xyz789" "en" Medium
  = ([call_list_transcripts "xyz789"; call_find_transcript ["en"]; call_fetch;
      st_error "Could not retrieve transcript"], Ret tt).
Proof.
  refine (proj1 (blank_document_at_the_button
                   (mock_api [("en", VList [entry "  "])]) echo_model
                   "https://youtu.be/xyz789" "en" "xyz789" Medium
                   {| find_transcript :=
                        find_in_tracks [("en", VList [entry "  "])] |}
                   [call_find_transcript ["en"]]
                   {| fetch := Ret (VList [entry "  "]) |}
                   [entry "  "] _ _ _ _ _ _) _).
  - vm_compute; reflexivity.
  - discriminate.
  - reflexivity.
  - vm_compute; reflexivity.
  - reflexivity.
  - repeat constructor.
    apply whitespace_only_entry; [discriminate | vm_compute; reflexivity].
  - reflexivity.
Defined.

Lemma thumbnail_follows_the_fetcher_guard_witness :
  (exists video_id,
      video_id <> ""
      /\ extract_video_id "https://youtu.be/xyz789" = Ret (Some video_id)
      /\ show_thumbnail "https://youtu.be/xyz789"
         = [st_image ("https://img.youtube.com/vi/" ++ video_id ++ "/0.jpg")
                     "Video Thumbnail" true]
      /\ hd_error (fst (get_transcript_text (mock_api [])
                          "https://youtu.be/xyz789" "en"))
         = Some (call_list_transcripts video_id))
  \/ (show_thumbnail "https://youtu.be/xyz789" = []
      /\ List.filter is_call
           (fst (get_transcript_text (mock_api []) "https://youtu.be/xyz789"
                   "en"))
         = []
      /\ snd (get_transcript_text (mock_api []) "https://youtu.be/xyz789" "en")
         = Ret None).
Proof.
  refine (thumbnail_follows_the_fetcher_guard (mock_api [])
            "https://youtu.be/xyz789" "en" _).
  discriminate.
Defined.

Lemma thumbnail_excludes_invalid_url_witness :
  (exists video_id,
      "https://img.youtube.com/vi/xyz789/0.jpg"
      = "https://img.youtube.com/vi/" ++ video_id ++ "/0.jpg"
      /\ In (shown (call_list_transcripts video_id))
            (page (mock_api [("en", VList [entry "hello"])]) echo_model
               "https://youtu.be/xyz789" "en" Short true))
  /\ ~ In (shown (st_error "Invalid YouTube URL"))
          (page (mock_api [("en", VList [entry "hello"])]) echo_model
             "https://youtu.be/xyz789" "en" Short true).
Proof.
  refine (thumbnail_excludes_invalid_url
            (mock_api [("en", VList [entry "hello"])]) echo_model
            "https://youtu.be/xyz789" "en" Short
            "https://img.youtube.com/vi/xyz789/0.jpg" "Video Thumbnail" true _).
  right. right. left. reflexivity.
Defined.
